(** * TuneTrunk: the application menu (src/menu.ts)

    A shallow embedding of the menu builder [mainMenuTemplate], of the click
    handlers it installs, of [setProxy], [setApplicationMenu] and
    [refreshMenu], followed by the properties of the menu tree and of the
    handlers.

    Closures are defunctionalised: the [click] field of a menu item holds a
    constructor of [Click], and [runClick] is the interpreter that executes
    the body the source gives to that closure.  The configuration store, the
    process-wide lock, the i18n state and the window are fields of [World];
    dialogs, messages and rebuild requests are logged in [events]. *)

From stdpp Require Import gmap strings list.
From Stdlib Require Import ZArith Permutation Sorted.

Local Open Scope string_scope.
Local Open Scope list_scope.
Local Set Warnings "-register-all".

(** ** JavaScript values held by the configuration store *)

Module Js.

Inductive value :=
| undefined
| boolean (b : bool)
| str (s : string)
| array (l : list string).

(** ToBoolean: an array is truthy even when it is empty. *)
Definition truthy (v : value) : bool :=
  match v with
  | undefined => false
  | boolean b => b
  | str s => negb (bool_decide (s = ""))
  | array _ => true
  end.

(** [!v] *)
Definition not (v : value) : value := boolean (negb (truthy v)).

(** [a && b] yields one of its operands. *)
Definition and (a b : value) : value := if truthy a then b else a.

(** [v === s] for a string [s]. *)
Definition strict_eq_str (v : value) (s : string) : value :=
  boolean match v with
          | str s' => bool_decide (s' = s)
          | _ => false
          end.

(** [v?.length]; [None] stands for [undefined].  The module only compares
    the result with 0. *)
Definition opt_length (v : value) : option nat :=
  match v with
  | array l => Some (length l)
  | str s => Some (String.length s)
  | _ => None
  end.

(** [v?.length === 0] *)
Definition opt_length_is_zero (v : value) : value :=
  boolean match opt_length v with
          | Some 0 => true
          | _ => false
          end.

End Js.

(** ** Menu items *)

Inductive Platform := win32 | linux | darwin.

Inductive ItemType := normal | separator | checkbox | radio.

(** The callback handed to [pluginEnabledMenu]; the only one the module
    builds is [() => refreshMenu(win)]. *)
Inductive Callback := innerRefreshMenu.

(** The closures installed as [click], one constructor per closure body of
    the source, with the variables each closure captures. *)
Inductive Click :=
| clickPluginEnabled (plugin : string) (hasSubmenu : bool)
                     (refreshMenu : option Callback)
| clickSetMenuOption (path : string)
| clickStartingPage (name : string)
| clickLikeButtons (v : string)
| clickNoTheme
| clickImportCssFile
| clickSingleInstanceLock
| clickAlwaysOnTop
| clickHideMenu
| clickTray (tray appVisible : bool)
| clickLanguage (lang : string)
| clickSetProxy
| clickToggleDevTools
| clickEditConfig
| clickGoBack
| clickGoForward
| clickCopyCurrentUrl
| clickRestart
| clickContributed (plugin : string) (n : nat).

(** [Electron.MenuItemConstructorOptions], with the fields the module
    writes; an absent field is [None]. *)
Inductive MenuItemConstructorOptions := MkOptions {
  label : option string;
  type : option ItemType;
  checked : option Js.value;
  click : option Click;
  submenu : option (list MenuItemConstructorOptions);
  role : option string;
  accelerator : option string;
}.

Definition MenuTemplate := list MenuItemConstructorOptions.

(** Object literals by shape. *)
Definition typedItem (l : string) (ty : ItemType) (c : Js.value) (k : Click)
  : MenuItemConstructorOptions :=
  MkOptions (Some l) (Some ty) (Some c) (Some k) None None None.

Definition normalItem (l : string) (k : Click) : MenuItemConstructorOptions :=
  MkOptions (Some l) (Some normal) None (Some k) None None None.

Definition actionItem (l : string) (k : Click) : MenuItemConstructorOptions :=
  MkOptions (Some l) None None (Some k) None None None.

Definition submenuItem (l : string) (sub : MenuTemplate)
  : MenuItemConstructorOptions :=
  MkOptions (Some l) None None None (Some sub) None None.

Definition separatorItem : MenuItemConstructorOptions :=
  MkOptions None (Some separator) None None None None None.

Definition roleItem (r : string) : MenuItemConstructorOptions :=
  MkOptions None None None None None (Some r) None.

Definition roleAccelItem (r a : string) : MenuItemConstructorOptions :=
  MkOptions None None None None None (Some r) (Some a).

(** The toolkit reads [checked] as a boolean; an absent field is false. *)
Definition isChecked (it : MenuItemConstructorOptions) : bool :=
  match checked it with
  | Some v => Js.truthy v
  | None => false
  end.

(** An item and everything below it, in document order. *)
Fixpoint flattenItem (it : MenuItemConstructorOptions)
  : list MenuItemConstructorOptions :=
  match it with
  | MkOptions _ _ _ _ sub _ _ =>
      it :: match sub with
            | Some l =>
                (fix go (l : list MenuItemConstructorOptions) :=
                   match l with
                   | [] => []
                   | x :: r => flattenItem x ++ go r
                   end) l
            | None => []
            end
  end.

Definition flatten (m : MenuTemplate) : list MenuItemConstructorOptions :=
  flat_map flattenItem m.

(** ** The world the menu reads and writes *)

Inductive Event :=
| ShowMessageBox (kind : option string) (title message : string)
| RefreshMenuRequested
| SetLanguage (lang : string)
| RestartPromptMarked (path : string)
| SetAlwaysOnTop (flag : bool)
| Send (channel : string)
| EditConfig
| GoBack
| GoForward
| Restart
| Contributed (plugin : string) (n : nat).

(** [config]: option paths to values, and the set of enabled plugins. *)
Record Config := MkConfig {
  options : gmap string Js.value;
  plugins : gset string;
}.

Record World := MkWorld {
  config : Config;
  hasSingleInstanceLock : bool;
  i18nLanguage : string;
  devToolsOpened : bool;
  canGoBack : bool;
  canGoForward : bool;
  currentURL : string;
  clipboardText : string;
  applicationMenu : option MenuTemplate;
  events : list Event;
}.

Definition withConfig (c : Config) (w : World) : World :=
  MkWorld c (hasSingleInstanceLock w) (i18nLanguage w) (devToolsOpened w)
          (canGoBack w) (canGoForward w) (currentURL w) (clipboardText w)
          (applicationMenu w) (events w).

Definition withLock (b : bool) (w : World) : World :=
  MkWorld (config w) b (i18nLanguage w) (devToolsOpened w)
          (canGoBack w) (canGoForward w) (currentURL w) (clipboardText w)
          (applicationMenu w) (events w).

Definition withLanguage (l : string) (w : World) : World :=
  MkWorld (config w) (hasSingleInstanceLock w) l (devToolsOpened w)
          (canGoBack w) (canGoForward w) (currentURL w) (clipboardText w)
          (applicationMenu w) (events w).

Definition withDevTools (b : bool) (w : World) : World :=
  MkWorld (config w) (hasSingleInstanceLock w) (i18nLanguage w) b
          (canGoBack w) (canGoForward w) (currentURL w) (clipboardText w)
          (applicationMenu w) (events w).

Definition withClipboard (s : string) (w : World) : World :=
  MkWorld (config w) (hasSingleInstanceLock w) (i18nLanguage w)
          (devToolsOpened w) (canGoBack w) (canGoForward w) (currentURL w) s
          (applicationMenu w) (events w).

Definition withApplicationMenu (m : MenuTemplate) (w : World) : World :=
  MkWorld (config w) (hasSingleInstanceLock w) (i18nLanguage w)
          (devToolsOpened w) (canGoBack w) (canGoForward w) (currentURL w)
          (clipboardText w) (Some m) (events w).

Definition emit (e : Event) (w : World) : World :=
  MkWorld (config w) (hasSingleInstanceLock w) (i18nLanguage w)
          (devToolsOpened w) (canGoBack w) (canGoForward w) (currentURL w)
          (clipboardText w) (applicationMenu w) (events w ++ [e]).

(** *** The configuration accessor (./config) *)

(** [config.get(path)]: an absent path reads as [undefined]. *)
Definition configGet (w : World) (path : string) : Js.value :=
  default Js.undefined (options (config w) !! path).

(** [config.set(path, value)] *)
Definition configSet (path : string) (v : Js.value) (w : World) : World :=
  withConfig (MkConfig (<[path := v]> (options (config w)))
                       (plugins (config w))) w.

(** Modelled from the spec: [config.setMenuOption] lives in ./config, which
    is not part of the sources; the spec gives it as "set + mark for possible
    restart-prompt". *)
Definition configSetMenuOption (path : string) (v : Js.value) (w : World)
  : World :=
  emit (RestartPromptMarked path) (configSet path v w).

(** [config.plugins.isEnabled / enable / disable] *)
Definition pluginsIsEnabled (w : World) (plugin : string) : bool :=
  bool_decide (plugin ∈ plugins (config w)).

Definition pluginsEnable (plugin : string) (w : World) : World :=
  withConfig (MkConfig (options (config w))
                       ({[plugin]} ∪ plugins (config w))) w.

Definition pluginsDisable (plugin : string) (w : World) : World :=
  withConfig (MkConfig (options (config w))
                       (plugins (config w) ∖ {[plugin]})) w.

(** ** The environment of the module: what its imports provide *)

Record PluginDef := MkPluginDef { name : option string }.

Record LanguageResource := MkLanguageResource {
  languageName : string;
  languageLocalName : string;
}.

(** What the user answers when a handler awaits a dialog. *)
Record Input := MkInput {
  (** result of the prompt: a string, or [None] when it was cancelled *)
  promptOutput : option string;
  (** [filePaths] of the open-file dialog; [None] is [undefined] *)
  openDialogFilePaths : option (list string);
  (** result of [app.requestSingleInstanceLock()] *)
  lockGranted : bool;
}.

Record Env := MkEnv {
  platform : Platform;
  (** [allPlugins] of virtual:plugins, in key order *)
  allPlugins : list (string * PluginDef);
  (** [languageResources] of virtual:i18n, in key order *)
  languageResources : list (string * LanguageResource);
  (** [Object.keys(startingPages)] *)
  startingPages : list string;
  (** [t(key)] of @/i18n, under the active language *)
  translate : string → string → string;
  (** [String.prototype.localeCompare] *)
  localeCompare : string → string → Z;
  (** [config.plugins.isEnabled('in-app-menu')] when the module was loaded *)
  inAppMenuActive : bool;
  (** [app.name] *)
  appName : string;
  (** the [click] closures of the fragments the plugins contribute: they
      come from the plugins, not from this module, and may do anything *)
  contributedClick : string → nat → Input → bool → World → World * bool;
}.

(** [obj[key]] on an object given by its entries. *)
Fixpoint property {A} (obj : list (string * A)) (key : string) : option A :=
  match obj with
  | [] => None
  | (k, v) :: rest => if bool_decide (k = key) then Some v else property rest key
  end.

(** [Object.keys(obj)] *)
Definition keys {A} (obj : list (string * A)) : list string := map fst obj.

(** [Array.prototype.sort(cmp)]: a stable sort; [a] stays before [b] unless
    [cmp a b] is positive. *)
Fixpoint sortInsert {A} (cmp : A → A → Z) (x : A) (l : list A) : list A :=
  match l with
  | [] => [x]
  | y :: r => if (cmp x y <=? 0)%Z then x :: y :: r else y :: sortInsert cmp x r
  end.

Fixpoint arraySort {A} (cmp : A → A → Z) (l : list A) : list A :=
  match l with
  | [] => []
  | x :: r => sortInsert cmp x (arraySort cmp r)
  end.

Section Menu.

Variable env : Env.

Definition t (w : World) (key : string) : string :=
  translate env (i18nLanguage w) key.

Definition isWindows : bool :=
  match platform env with win32 => true | _ => false end.
Definition isLinux : bool :=
  match platform env with linux => true | _ => false end.
Definition isMacOS : bool :=
  match platform env with darwin => true | _ => false end.

(** [allPlugins[id]?.name ?? id] *)
Definition pluginLabel (id : string) : string :=
  match property (allPlugins env) id with
  | Some def => default id (name def)
  | None => id
  end.

(** lines 31-51 (the item; its [click] is [clickPluginEnabled]) *)
Definition pluginEnabledMenu (w : World) (plugin : string) (label : string)
    (hasSubmenu : bool) (refreshMenu : option Callback)
  : MenuItemConstructorOptions :=
  typedItem (if bool_decide (label = "") then plugin else label)
            checkbox
            (Js.boolean (pluginsIsEnabled w plugin))
            (clickPluginEnabled plugin hasSubmenu refreshMenu).

(** lines 67-90; [templates] is what [getAllMenuTemplate()] returns once
    [loadAllMenuPlugins(win)] has completed. *)
Definition menuResult (templates : list (string * MenuTemplate)) (w : World)
  : list (string * MenuItemConstructorOptions) :=
  map (λ '(id, template),
         if negb (pluginsIsEnabled w id)
         then (id, pluginEnabledMenu w id (pluginLabel id) true
                     (Some innerRefreshMenu))
         else (id, submenuItem (pluginLabel id)
                     (pluginEnabledMenu w id (t w "main.menu.plugins.enabled")
                        true (Some innerRefreshMenu)
                      :: separatorItem
                      :: template)))
      templates.

(** lines 92-99 *)
Definition sortedPlugins : list string :=
  arraySort (λ a b, localeCompare env (pluginLabel a) (pluginLabel b))
            (keys (allPlugins env)).

(** lines 100-107, the body of the [map] *)
Definition pluginMenu (templates : list (string * MenuTemplate)) (w : World)
    (id : string) : MenuItemConstructorOptions :=
  match find (λ it, bool_decide (it.1 = id)) (menuResult templates w) with
  | Some predefinedTemplate => predefinedTemplate.2
  | None => pluginEnabledMenu w id (pluginLabel id) true
              (Some innerRefreshMenu)
  end.

Definition pluginMenus (templates : list (string * MenuTemplate)) (w : World)
  : MenuTemplate :=
  map (pluginMenu templates w) sortedPlugins.

(** lines 136-157 *)
Definition startingPageMenu (w : World) : MenuTemplate :=
  typedItem (t w "main.menu.options.submenu.starting-page.unset") radio
    (Js.strict_eq_str (configGet w "options.startingPage") "")
    (clickStartingPage "")
  :: map (λ name,
            typedItem name radio
              (Js.strict_eq_str (configGet w "options.startingPage") name)
              (clickStartingPage name))
         (startingPages env).

(** lines 173-200 *)
Definition likeButtonsMenu (w : World) : MenuTemplate :=
  [ typedItem
      (t w "main.menu.options.submenu.visual-tweaks.submenu.like-buttons.default")
      radio (Js.not (configGet w "options.likeButtons"))
      (clickLikeButtons "");
    typedItem
      (t w "main.menu.options.submenu.visual-tweaks.submenu.like-buttons.force-show")
      radio (Js.strict_eq_str (configGet w "options.likeButtons") "force")
      (clickLikeButtons "force");
    typedItem
      (t w "main.menu.options.submenu.visual-tweaks.submenu.like-buttons.hide")
      radio (Js.strict_eq_str (configGet w "options.likeButtons") "hide")
      (clickLikeButtons "hide") ].

(** lines 201-227 *)
Definition themeMenu (w : World) : MenuTemplate :=
  [ typedItem
      (t w "main.menu.options.submenu.visual-tweaks.submenu.theme.submenu.no-theme")
      radio (Js.opt_length_is_zero (configGet w "options.themes"))
      clickNoTheme;
    separatorItem;
    normalItem
      (t w "main.menu.options.submenu.visual-tweaks.submenu.theme.submenu.import-css-file")
      clickImportCssFile ].

(** lines 158-229 *)
Definition visualTweaksMenu (w : World) : MenuTemplate :=
  [ typedItem
      (t w "main.menu.options.submenu.visual-tweaks.submenu.remove-upgrade-button")
      checkbox (configGet w "options.removeUpgradeButton")
      (clickSetMenuOption "options.removeUpgradeButton");
    submenuItem
      (t w "main.menu.options.submenu.visual-tweaks.submenu.like-buttons.label")
      (likeButtonsMenu w);
    submenuItem
      (t w "main.menu.options.submenu.visual-tweaks.submenu.theme.label")
      (themeMenu w) ].

(** lines 251-269 *)
Definition hideMenuItems (w : World) : MenuTemplate :=
  if isWindows || isLinux
  then [ typedItem (t w "main.menu.options.submenu.hide-menu.label") checkbox
           (configGet w "options.hideMenu") clickHideMenu ]
  else [].

(** lines 270-283 *)
Definition startAtLoginItems (w : World) : MenuTemplate :=
  if isWindows || isMacOS
  then [ typedItem (t w "main.menu.options.submenu.start-at-login") checkbox
           (configGet w "options.startAtLogin")
           (clickSetMenuOption "options.startAtLogin") ]
  else [].

(** lines 284-329 *)
Definition trayMenu (w : World) : MenuTemplate :=
  [ typedItem (t w "main.menu.options.submenu.tray.submenu.disabled") radio
      (Js.not (configGet w "options.tray"))
      (clickTray false true);
    typedItem (t w "main.menu.options.submenu.tray.submenu.enabled-and-show-app")
      radio
      (Js.and (configGet w "options.tray") (configGet w "options.appVisible"))
      (clickTray true true);
    typedItem (t w "main.menu.options.submenu.tray.submenu.enabled-and-hide-app")
      radio
      (Js.and (configGet w "options.tray")
              (Js.not (configGet w "options.appVisible")))
      (clickTray true false);
    separatorItem;
    typedItem (t w "main.menu.options.submenu.tray.submenu.play-pause-on-click")
      checkbox (configGet w "options.trayClickPlayPause")
      (clickSetMenuOption "options.trayClickPlayPause") ].

(** line 333; [lang] ranges over the keys of [languageResources], so the
    entry exists. *)
Definition languageLabel (lang : string) : string :=
  match property (languageResources env) lang with
  | Some r => languageName r +:+ " (" +:+ languageLocalName r +:+ ")"
  | None => ""
  end.

(** lines 330-349 *)
Definition languageMenu (w : World) : MenuTemplate :=
  map (λ lang,
         typedItem (languageLabel lang) checkbox
           (Js.strict_eq_str (configGet w "options.language") lang)
           (clickLanguage lang))
      (keys (languageResources env)).

(** lines 351-421 *)
Definition advancedOptionsMenu (w : World) : MenuTemplate :=
  [ normalItem
      (t w "main.menu.options.submenu.advanced-options.submenu.set-proxy.label")
      clickSetProxy;
    typedItem
      (t w "main.menu.options.submenu.advanced-options.submenu.override-user-agent")
      checkbox (configGet w "options.overrideUserAgent")
      (clickSetMenuOption "options.overrideUserAgent");
    typedItem
      (t w "main.menu.options.submenu.advanced-options.submenu.disable-hardware-acceleration")
      checkbox (configGet w "options.disableHardwareAcceleration")
      (clickSetMenuOption "options.disableHardwareAcceleration");
    typedItem
      (t w "main.menu.options.submenu.advanced-options.submenu.restart-on-config-changes")
      checkbox (configGet w "options.restartOnConfigChanges")
      (clickSetMenuOption "options.restartOnConfigChanges");
    typedItem
      (t w "main.menu.options.submenu.advanced-options.submenu.auto-reset-app-cache")
      checkbox (configGet w "options.autoResetAppCache")
      (clickSetMenuOption "options.autoResetAppCache");
    separatorItem;
    if isMacOS
    then actionItem
           (t w "main.menu.options.submenu.advanced-options.submenu.toggle-dev-tools")
           clickToggleDevTools
    else roleItem "toggleDevTools";
    actionItem
      (t w "main.menu.options.submenu.advanced-options.submenu.edit-config-json")
      clickEditConfig ].

(** lines 230-241 *)
Definition singleInstanceLockItem (w : World) : MenuItemConstructorOptions :=
  typedItem (t w "main.menu.options.submenu.single-instance-lock") checkbox
    (Js.boolean true) clickSingleInstanceLock.

(** lines 116-423, the [submenu] of the Options group *)
Definition optionsMenu (w : World) : MenuTemplate :=
  [ typedItem (t w "main.menu.options.submenu.auto-update") checkbox
      (configGet w "options.autoUpdates")
      (clickSetMenuOption "options.autoUpdates");
    typedItem (t w "main.menu.options.submenu.resume-on-start") checkbox
      (configGet w "options.resumeOnStart")
      (clickSetMenuOption "options.resumeOnStart");
    submenuItem (t w "main.menu.options.submenu.starting-page.label")
      (startingPageMenu w);
    submenuItem (t w "main.menu.options.submenu.visual-tweaks.label")
      (visualTweaksMenu w);
    singleInstanceLockItem w;
    typedItem (t w "main.menu.options.submenu.always-on-top") checkbox
      (configGet w "options.alwaysOnTop") clickAlwaysOnTop ]
  ++ hideMenuItems w
  ++ startAtLoginItems w
  ++ [ submenuItem (t w "main.menu.options.submenu.tray.label") (trayMenu w);
       submenuItem (t w "main.menu.options.submenu.language.label")
         (languageMenu w);
       separatorItem;
       submenuItem (t w "main.menu.options.submenu.advanced-options.label")
         (advancedOptionsMenu w) ].

(** lines 424-442 *)
Definition viewMenu : MenuTemplate :=
  [ roleItem "reload";
    roleItem "forceReload";
    separatorItem;
    roleAccelItem "zoomIn" (if isMacOS then "Cmd+I" else "Ctrl+I");
    roleAccelItem "zoomOut" (if isMacOS then "Cmd+O" else "Ctrl+O");
    roleItem "resetZoom";
    separatorItem;
    roleItem "togglefullscreen" ].

(** lines 443-475 *)
Definition navigationMenu (w : World) : MenuTemplate :=
  [ actionItem (t w "main.menu.navigation.submenu.go-back") clickGoBack;
    actionItem (t w "main.menu.navigation.submenu.go-forward") clickGoForward;
    actionItem (t w "main.menu.navigation.submenu.copy-current-url")
      clickCopyCurrentUrl;
    actionItem (t w "main.menu.navigation.submenu.restart") clickRestart;
    roleItem "quit" ].

(** lines 60-481 *)
Definition mainMenuTemplate (templates : list (string * MenuTemplate))
    (w : World) : MenuTemplate :=
  [ submenuItem (t w "main.menu.plugins.label") (pluginMenus templates w);
    submenuItem (t w "main.menu.options.label") (optionsMenu w);
    submenuItem (t w "main.menu.view.label") viewMenu;
    submenuItem (t w "main.menu.navigation.label") (navigationMenu w);
    submenuItem (t w "main.menu.about") [ roleItem "about" ] ].

(** lines 482-509; the installed menu is kept in [applicationMenu]. *)
Definition setApplicationMenu (templates : list (string * MenuTemplate))
    (w : World) : World :=
  let menuTemplate := mainMenuTemplate templates w in
  let menuTemplate :=
    if isMacOS
    then submenuItem (appName env)
           [ roleItem "about"; separatorItem;
             roleItem "hide"; roleItem "hideOthers"; roleItem "unhide";
             separatorItem;
             roleItem "selectAll"; roleItem "cut"; roleItem "copy";
             roleItem "paste"; separatorItem;
             roleItem "minimize"; roleItem "close"; roleItem "quit" ]
         :: menuTemplate
    else menuTemplate in
  withApplicationMenu menuTemplate w.

(** lines 53-58 *)
Definition refreshMenu (templates : list (string * MenuTemplate)) (w : World)
  : World :=
  let w := setApplicationMenu templates w in
  if inAppMenuActive env then emit (Send "refresh-in-app-menu") w else w.

(** *** Click handlers

    [runClick k inp checked w] runs the body of closure [k] on an item whose
    [checked] property is [checked] when the handler is entered; it returns
    the world and the item's [checked] property afterwards. *)

(** A callback of type [Callback] is called: [refreshMenu(win)] is started
    and not awaited; the rebuild itself runs once the handler has
    returned. *)
Definition call (cb : Callback) (w : World) : World :=
  match cb with
  | innerRefreshMenu => emit RefreshMenuRequested w
  end.

(** lines 511-535 *)
Definition setProxy (inp : Input) (checked : bool) (w : World)
  : World * bool :=
  match promptOutput inp with
  | Some output =>
      (configSetMenuOption "options.proxy" (Js.str output) w,
       negb (bool_decide (output = "")))
  | None => (w, negb checked)
  end.

Definition runClick (k : Click) (inp : Input) (checked : bool) (w : World)
  : World * bool :=
  match k with
  | clickPluginEnabled plugin hasSubmenu refreshMenu =>
      let w := if checked then pluginsEnable plugin w
               else pluginsDisable plugin w in
      (if hasSubmenu
       then match refreshMenu with Some cb => call cb w | None => w end
       else w, checked)
  | clickSetMenuOption path =>
      (configSetMenuOption path (Js.boolean checked) w, checked)
  | clickStartingPage name =>
      (configSet "options.startingPage" (Js.str name) w, checked)
  | clickLikeButtons v =>
      (configSet "options.likeButtons" (Js.str v) w, checked)
  | clickNoTheme =>
      (configSet "options.themes" (Js.array []) w, checked)
  | clickImportCssFile =>
      let filePaths := match openDialogFilePaths inp with
                       | Some l => Js.array l
                       | None => Js.undefined
                       end in
      (if Js.truthy filePaths
       then configSet "options.themes" filePaths w
       else w, checked)
  | clickSingleInstanceLock =>
      (if negb checked && hasSingleInstanceLock w
       then withLock false w
       else if checked && negb (hasSingleInstanceLock w)
            then withLock (lockGranted inp) w
            else w, checked)
  | clickAlwaysOnTop =>
      (emit (SetAlwaysOnTop checked)
         (configSetMenuOption "options.alwaysOnTop" (Js.boolean checked) w),
       checked)
  | clickHideMenu =>
      let w := configSetMenuOption "options.hideMenu" (Js.boolean checked) w in
      (if checked && negb (Js.truthy (configGet w "options.hideMenuWarned"))
       then emit (ShowMessageBox (Some "info")
                    (t w "main.menu.options.submenu.hide-menu.dialog.title")
                    (t w "main.menu.options.submenu.hide-menu.dialog.message"))
                 w
       else w, checked)
  | clickTray tray appVisible =>
      (configSetMenuOption "options.appVisible" (Js.boolean appVisible)
         (configSetMenuOption "options.tray" (Js.boolean tray) w), checked)
  | clickLanguage lang =>
      let w := configSetMenuOption "options.language" (Js.str lang) w in
      let w := emit RefreshMenuRequested w in
      let w := emit (SetLanguage lang) (withLanguage lang w) in
      (emit (ShowMessageBox None
               (t w "main.menu.options.submenu.language.dialog.title")
               (t w "main.menu.options.submenu.language.dialog.message")) w,
       checked)
  | clickSetProxy => setProxy inp checked w
  | clickToggleDevTools =>
      (withDevTools (negb (devToolsOpened w)) w, checked)
  | clickEditConfig => (emit EditConfig w, checked)
  | clickGoBack => (if canGoBack w then emit GoBack w else w, checked)
  | clickGoForward =>
      (if canGoForward w then emit GoForward w else w, checked)
  | clickCopyCurrentUrl => (withClipboard (currentURL w) w, checked)
  | clickRestart => (emit Restart w, checked)
  | clickContributed plugin n => contributedClick env plugin n inp checked w
  end.

(** The toolkit, when the user activates an item (Electron, MenuItem): a
    checkbox item toggles its [checked] property and a radio item turns it
    on before [click] is called; the [checked] property of an item of any
    other type is left as it is. *)
Definition toolkitChecked (ty : option ItemType) (checked : bool) : bool :=
  match ty with
  | Some checkbox => negb checked
  | Some radio => true
  | _ => checked
  end.

Definition activate (it : MenuItemConstructorOptions) (inp : Input)
    (checked : bool) (w : World) : World * bool :=
  let checked := toolkitChecked (type it) checked in
  match click it with
  | Some k => runClick k inp checked w
  | None => (w, checked)
  end.

End Menu.

(** ** Notions used to state the properties *)

(** The enable/disable checkbox of an entry of the Plugins group: the entry
    itself when it is a bare checkbox, the first child of the wrapper
    otherwise. *)
Definition pluginCheckbox (entry : MenuItemConstructorOptions)
  : MenuItemConstructorOptions :=
  match submenu entry with
  | Some (first :: _) => first
  | _ => entry
  end.

(** The plugin a checkbox built by [pluginEnabledMenu] toggles. *)
Definition toggledPlugin (it : MenuItemConstructorOptions) : option string :=
  match click it with
  | Some (clickPluginEnabled plugin _ _) => Some plugin
  | _ => None
  end.

(** The configuration path a checkbox handler writes [item.checked] to. *)
Definition boundPath (k : Click) : option string :=
  match k with
  | clickSetMenuOption path => Some path
  | clickAlwaysOnTop => Some "options.alwaysOnTop"
  | clickHideMenu => Some "options.hideMenu"
  | _ => None
  end.

Definition itemBoundPath (it : MenuItemConstructorOptions) : option string :=
  match click it with
  | Some k => boundPath k
  | None => None
  end.

(** The boolean paths the Options group binds to a checkbox. *)
Definition checkboxPaths (env : Env) : list string :=
  [ "options.autoUpdates"; "options.resumeOnStart";
    "options.removeUpgradeButton"; "options.alwaysOnTop" ]
  ++ (if isWindows env || isLinux env then ["options.hideMenu"] else [])
  ++ (if isWindows env || isMacOS env then ["options.startAtLogin"] else [])
  ++ [ "options.trayClickPlayPause"; "options.overrideUserAgent";
       "options.disableHardwareAcceleration";
       "options.restartOnConfigChanges"; "options.autoResetAppCache" ].

Definition isType (ty : ItemType) (it : MenuItemConstructorOptions) : bool :=
  match type it, ty with
  | Some normal, normal | Some separator, separator
  | Some checkbox, checkbox | Some radio, radio => true
  | _, _ => false
  end.

(** The handlers of the checked items of a group. *)
Definition checkedClicks (group : MenuTemplate) : list (option Click) :=
  map click (List.filter isChecked group).

Definition radioItems (group : MenuTemplate) : MenuTemplate :=
  List.filter (isType radio) group.

Definition isMessageBox (e : Event) : bool :=
  match e with
  | ShowMessageBox _ _ _ => true
  | _ => false
  end.

(** A checkbox bound to a configuration path, with its [checked] field. *)
Definition boundCheckbox (it : MenuItemConstructorOptions)
  : option (string * option Js.value) :=
  if isType checkbox it
  then match itemBoundPath it with
       | Some path => Some (path, checked it)
       | None => None
       end
  else None.

(** The bound checkboxes of a menu, at any depth, in document order. *)
Definition boundCheckboxes (m : MenuTemplate)
  : list (string * option Js.value) :=
  omap boundCheckbox (flatten m).

(** Selecting any item of [choices w] and rebuilding yields a group whose
    only checked item is the one selected. *)
Definition selectingChecks (env : Env) (choices : World → MenuTemplate)
    (w : World) : Prop :=
  Forall (λ it, ∀ k inp c,
            click it = Some k →
            checkedClicks (choices (runClick env k inp c w).1) = [Some k])
         (choices w).

(** How many message boxes have been shown so far. *)
Definition dialogsShown (w : World) : nat :=
  length (List.filter isMessageBox (events w)).

(** The hide-menu handler run once per element of [states], each element
    being the [checked] property of the item at that click. *)
Definition hideMenuToggles (env : Env) (inp : Input) (states : list bool)
    (w : World) : World :=
  foldl (λ w checked, (runClick env clickHideMenu inp checked w).1) w states.

(** The order a comparator induces: [a] may stay before [b]. *)
Definition cmpLe {A} (cmp : A → A → Z) (a b : A) : Prop := (cmp a b <= 0)%Z.

(** The answer of a user who picks [files] in the open-file dialog. *)
Definition picking (files : list string) (inp : Input) : Input :=
  MkInput (promptOutput inp) (Some files) (lockGranted inp).

(** The answer of a user who confirms the prompt with [text], or cancels. *)
Definition answering (output : option string) (inp : Input) : Input :=
  MkInput output (openDialogFilePaths inp) (lockGranted inp).

(** ** A concrete instance *)

(** A case-insensitive collation: letters are folded to lower case and the
    results compared code by code. *)
Definition foldCase (s : string) : list nat :=
  map (λ a, let n := Ascii.nat_of_ascii a in
            if (65 <=? n)%nat && (n <=? 90)%nat then (n + 32)%nat else n)
      (String.list_ascii_of_string s).

Fixpoint lexCompare (a b : list nat) : Z :=
  match a, b with
  | [], [] => 0
  | [], _ :: _ => -1
  | _ :: _, [] => 1
  | x :: a', y :: b' =>
      if (x <? y)%nat then -1
      else if (y <? x)%nat then 1
      else lexCompare a' b'
  end.

Definition foldedCompare (a b : string) : Z :=
  lexCompare (foldCase a) (foldCase b).

Definition exampleEnv : Env :=
  {| platform := linux;
     allPlugins := [ ("b", MkPluginDef (Some "Beta"));
                     ("a", MkPluginDef (Some "alpha")) ];
     languageResources := [ ("en", MkLanguageResource "English" "English");
                            ("fr", MkLanguageResource "French" "Francais") ];
     startingPages := ["Home"; "Library"];
     translate := λ _ key, key;
     localeCompare := foldedCompare;
     inAppMenuActive := false;
     appName := "TuneTrunk";
     contributedClick := λ plugin n _ checked w,
                           (emit (Contributed plugin n) w, checked) |}.

Definition exampleWorld : World :=
  {| config := MkConfig ∅ {[ "a" ]};
     hasSingleInstanceLock := true;
     i18nLanguage := "en";
     devToolsOpened := false;
     canGoBack := false;
     canGoForward := false;
     currentURL := "https://music.example/";
     clipboardText := "";
     applicationMenu := None;
     events := [] |}.

Definition exampleInput : Input :=
  {| promptOutput := None; openDialogFilePaths := None; lockGranted := true |}.

(** Plugin "a" contributes one action. *)
Definition exampleTemplates : list (string * MenuTemplate) :=
  [ ("a", [ actionItem "Do" (clickContributed "a" 0) ]) ].

(** ** Notions used for the further properties *)

(** The option paths the body of a closure can write. *)
Definition writtenPaths (k : Click) : list string :=
  match k with
  | clickSetMenuOption path => [path]
  | clickStartingPage _ => ["options.startingPage"]
  | clickLikeButtons _ => ["options.likeButtons"]
  | clickNoTheme | clickImportCssFile => ["options.themes"]
  | clickAlwaysOnTop => ["options.alwaysOnTop"]
  | clickHideMenu => ["options.hideMenu"]
  | clickTray _ _ => ["options.tray"; "options.appVisible"]
  | clickLanguage _ => ["options.language"]
  | clickSetProxy => ["options.proxy"]
  | _ => []
  end.

Definition isRefreshRequest (e : Event) : bool :=
  match e with
  | RefreshMenuRequested => true
  | _ => false
  end.

(** How many times [refreshMenu(win)] has been started so far. *)
Definition rebuildsRequested (w : World) : nat :=
  length (List.filter isRefreshRequest (events w)).

(** [a] and [b] collate as equal. *)
Definition tied {A} (cmp : A → A → Z) (a b : A) : bool :=
  (cmp a b <=? 0)%Z && (cmp b a <=? 0)%Z.

(** The comparator handed to [sort] at lines 94-99. *)
Definition compareLabels (env : Env) (a b : string) : Z :=
  localeCompare env (pluginLabel env a) (pluginLabel env b).

Definition present {A} (field : option A) : bool :=
  match field with
  | Some _ => true
  | None => false
  end.

(** An item the toolkit can render and act on: a separator; a checkbox or a
    radio item with label, [checked] and handler; a normal item with label
    and handler; or, without type, a role item or a labelled item that opens
    a submenu or has a handler. *)
Definition wellFormedItem (it : MenuItemConstructorOptions) : bool :=
  match type it with
  | Some separator => true
  | Some checkbox | Some radio =>
      present (label it) && present (checked it) && present (click it)
  | Some normal => present (label it) && present (click it)
  | None =>
      present (role it)
      || present (label it) && (present (submenu it) || present (click it))
  end.

(** Every item of a menu, at any depth, is well formed. *)
Definition allWellFormed (m : MenuTemplate) : bool :=
  forallb wellFormedItem (flatten m).

(** The concrete instance with its plugins registered in display order. *)
Definition orderedEnv : Env :=
  {| platform := darwin;
     allPlugins := [ ("a", MkPluginDef (Some "alpha"));
                     ("b", MkPluginDef (Some "Beta"));
                     ("c", MkPluginDef (Some "BETA")) ];
     languageResources := languageResources exampleEnv;
     startingPages := startingPages exampleEnv;
     translate := translate exampleEnv;
     localeCompare := foldedCompare;
     inAppMenuActive := true;
     appName := "TuneTrunk";
     contributedClick := contributedClick exampleEnv |}.

(** The closures this module builds, as opposed to the closures of the
    fragments the plugins contribute. *)
Definition ownClick (k : Click) : bool :=
  match k with
  | clickContributed _ _ => false
  | _ => true
  end.

(** What [getAllMenuTemplate()] returns once [loadAllMenuPlugins(win)] has
    completed (lines 65-67), for the world in which the build runs. *)
Definition Loader := World → list (string * MenuTemplate).

(** [refreshMenu(win)] run [n] times in a row, each run asking the loader. *)
Fixpoint runRefreshes (env : Env) (loader : Loader) (n : nat) (w : World)
  : World :=
  match n with
  | 0%nat => w
  | S n' => runRefreshes env loader n' (refreshMenu env (loader w) w)
  end.

(** A handler starts [refreshMenu(win)] and does not await it: the promise
    suspends at its first [await], before the tree is built, so the tree is
    built from the world the handler leaves.  [clickAndRefresh] runs the
    handler and then the refreshes the handler has started. *)
Definition clickAndRefresh (env : Env) (loader : Loader) (k : Click)
    (inp : Input) (checked : bool) (w : World) : World * bool :=
  let after := runClick env k inp checked w in
  (runRefreshes env loader (rebuildsRequested after.1 - rebuildsRequested w)
     after.1,
   after.2).

(** ** Case-insensitive collation *)

Definition lowerAscii (a : Ascii.ascii) : Ascii.ascii :=
  let n := Ascii.nat_of_ascii a in
  if (65 <=? n)%nat && (n <=? 90)%nat then Ascii.ascii_of_nat (n + 32) else a.

Fixpoint lowerCase (s : string) : string :=
  match s with
  | EmptyString => EmptyString
  | String a r => String (lowerAscii a) (lowerCase r)
  end.

(** A collation is case-insensitive when the case of the letters of its
    operands makes no difference to the result. *)
Definition caseInsensitive (collate : string → string → Z) : Prop :=
  ∀ a b, collate (lowerCase a) (lowerCase b) = collate a b.

Definition rawCodes (s : string) : list nat :=
  map Ascii.nat_of_ascii (String.list_ascii_of_string s).

(** A collation in the manner of the host's default one: letters first,
    whatever their case; between strings equal up to case, lower case
    first. *)
Definition tertiaryCompare (a b : string) : Z :=
  let c := foldedCompare a b in
  if (c =? 0)%Z then lexCompare (rawCodes b) (rawCodes a) else c.

Definition tertiaryEnv : Env :=
  {| platform := win32;
     allPlugins := [ ("x", MkPluginDef (Some "Beta"));
                     ("y", MkPluginDef (Some "ALPHA"));
                     ("z", MkPluginDef (Some "alpha")) ];
     languageResources := languageResources exampleEnv;
     startingPages := startingPages exampleEnv;
     translate := translate exampleEnv;
     localeCompare := tertiaryCompare;
     inAppMenuActive := true;
     appName := "TuneTrunk";
     contributedClick := contributedClick exampleEnv |}.

(** ** Basic facts about the configuration accessor *)

Lemma configGet_configSet_eq path v w :
  configGet (configSet path v w) path = v.
Proof. unfold configGet, configSet; simpl. by rewrite lookup_insert_eq. Qed.

Lemma configGet_configSet_ne path path' v w :
  path ≠ path' → configGet (configSet path v w) path' = configGet w path'.
Proof.
  intros Hne. unfold configGet, configSet; simpl.
  by rewrite lookup_insert_ne.
Qed.

Lemma configGet_emit e w path : configGet (emit e w) path = configGet w path.
Proof. reflexivity. Qed.

Lemma configGet_setMenuOption_eq path v w :
  configGet (configSetMenuOption path v w) path = v.
Proof.
  unfold configSetMenuOption. rewrite configGet_emit.
  apply configGet_configSet_eq.
Qed.

Lemma configGet_setMenuOption_ne path path' v w :
  path ≠ path' →
  configGet (configSetMenuOption path v w) path' = configGet w path'.
Proof.
  intros Hne. unfold configSetMenuOption. rewrite configGet_emit.
  by apply configGet_configSet_ne.
Qed.

Lemma pluginsIsEnabled_enable plugin w :
  pluginsIsEnabled (pluginsEnable plugin w) plugin = true.
Proof.
  unfold pluginsIsEnabled, pluginsEnable; simpl.
  apply bool_decide_eq_true, elem_of_union_l. by apply elem_of_singleton.
Qed.

Lemma pluginsIsEnabled_disable plugin w :
  pluginsIsEnabled (pluginsDisable plugin w) plugin = false.
Proof.
  unfold pluginsIsEnabled, pluginsDisable; simpl.
  apply bool_decide_eq_false. rewrite elem_of_difference, elem_of_singleton.
  tauto.
Qed.

(** [refreshMenu] installs the tree built from the world it runs in, behind
    the application submenu on macOS, and tells the in-app menu only when
    that menu was active at launch. *)
Lemma refreshMenu_rebuilds env templates w :
  (∃ prefix,
     applicationMenu (refreshMenu env templates w)
     = Some (prefix ++ mainMenuTemplate env templates w)
     ∧ length prefix = (if isMacOS env then 1%nat else 0%nat))
  ∧ events (refreshMenu env templates w)
    = events w
      ++ (if inAppMenuActive env then [Send "refresh-in-app-menu"] else [])
  ∧ config (refreshMenu env templates w) = config w.
Proof.
  unfold refreshMenu, setApplicationMenu.
  destruct (inAppMenuActive env), (isMacOS env); simpl;
    rewrite ?app_nil_r;
    (split; [|done]);
    first [ by exists [] | by eexists [_] ].
Qed.

(** ** The Plugins group *)

Section Plugins.

Variable env : Env.
Variable templates : list (string * MenuTemplate).
Variable w : World.

(** Looking an id up in [menuResult] is looking it up in the loader's map
    and building the entry for what is found. *)
Lemma find_menuResult id :
  find (λ it, bool_decide (it.1 = id)) (menuResult env templates w)
  = match property templates id with
    | Some template =>
        Some (if negb (pluginsIsEnabled w id)
              then (id, pluginEnabledMenu w id (pluginLabel env id) true
                          (Some innerRefreshMenu))
              else (id, submenuItem (pluginLabel env id)
                          (pluginEnabledMenu w id
                             (t env w "main.menu.plugins.enabled") true
                             (Some innerRefreshMenu)
                           :: separatorItem :: template)))
    | None => None
    end.
Proof.
  unfold menuResult.
  induction templates as [|[id' template] rest IH]; simpl; [done|].
  destruct (negb (pluginsIsEnabled w id')) eqn:Hen; simpl;
    destruct (bool_decide_reflect (id' = id)) as [->|Hne];
    try rewrite Hen; auto.
Qed.

Lemma pluginMenu_disabled id :
  pluginsIsEnabled w id = false →
  pluginMenu env templates w id
  = pluginEnabledMenu w id (pluginLabel env id) true
      (Some innerRefreshMenu).
Proof.
  intros Hdis. unfold pluginMenu. rewrite find_menuResult, Hdis.
  by destruct (property templates id).
Qed.

Lemma pluginMenu_enabled_template id template :
  pluginsIsEnabled w id = true →
  property templates id = Some template →
  pluginMenu env templates w id
  = submenuItem (pluginLabel env id)
      (pluginEnabledMenu w id (t env w "main.menu.plugins.enabled") true
         (Some innerRefreshMenu)
       :: separatorItem :: template).
Proof.
  intros Hen Htpl. unfold pluginMenu. by rewrite find_menuResult, Htpl, Hen.
Qed.

Lemma pluginMenu_no_template id :
  property templates id = None →
  pluginMenu env templates w id
  = pluginEnabledMenu w id (pluginLabel env id) true
      (Some innerRefreshMenu).
Proof.
  intros Htpl. unfold pluginMenu. by rewrite find_menuResult, Htpl.
Qed.

(** Whatever its shape, the entry of [id] carries the checkbox of [id],
    built with [hasSubmenu = true] and the rebuild callback. *)
Lemma pluginMenu_checkbox id :
  ∃ label,
    pluginCheckbox (pluginMenu env templates w id)
    = pluginEnabledMenu w id label true (Some innerRefreshMenu).
Proof.
  unfold pluginMenu. rewrite find_menuResult.
  destruct (property templates id) as [template|]; [|by eexists].
  destruct (negb (pluginsIsEnabled w id)); by eexists.
Qed.

End Plugins.

(** A click on a checkbox built with [hasSubmenu = true] and the rebuild
    callback requests the rebuild, whatever the new state of the item. *)
Lemma runClick_pluginEnabled_events env plugin inp checked w :
  events (runClick env (clickPluginEnabled plugin true (Some innerRefreshMenu))
                   inp checked w).1
  = events w ++ [RefreshMenuRequested].
Proof. by destruct checked. Qed.

Lemma runClick_pluginEnabled_state env plugin hasSubmenu cb inp checked w :
  pluginsIsEnabled (runClick env (clickPluginEnabled plugin hasSubmenu cb)
                             inp checked w).1 plugin
  = checked.
Proof.
  assert (Hemit : ∀ e w', pluginsIsEnabled (emit e w') plugin
                          = pluginsIsEnabled w' plugin) by done.
  simpl. destruct checked, hasSubmenu, cb as [[]|]; simpl;
    rewrite ?Hemit;
    auto using pluginsIsEnabled_enable, pluginsIsEnabled_disable.
Qed.

(** Disabling a plugin through its checkbox requests one rebuild, and the
    rebuilt entry is the plain unchecked checkbox. *)
Lemma plugin_disabled_then_rebuilt env templates w id inp :
  let w' := (runClick env (clickPluginEnabled id true (Some innerRefreshMenu))
                      inp false w).1 in
  events w' = events w ++ [RefreshMenuRequested]
  ∧ pluginMenu env templates w' id
    = typedItem (if bool_decide (pluginLabel env id = "")
                 then id else pluginLabel env id)
                checkbox (Js.boolean false)
                (clickPluginEnabled id true (Some innerRefreshMenu)).
Proof.
  cbv zeta. split; [done|].
  rewrite pluginMenu_disabled by apply runClick_pluginEnabled_state.
  unfold pluginEnabledMenu. by rewrite runClick_pluginEnabled_state.
Qed.

(** A handler that has started one refresh is followed by one run of
    [refreshMenu], in the world the handler leaves. *)
Lemma clickAndRefresh_once env loader k inp state w new :
  events (runClick env k inp state w).1 = events w ++ new →
  length (List.filter isRefreshRequest new) = 1%nat →
  (clickAndRefresh env loader k inp state w).1
  = refreshMenu env (loader (runClick env k inp state w).1)
      (runClick env k inp state w).1.
Proof.
  intros Hevents Hone. unfold clickAndRefresh, rebuildsRequested.
  cbn [fst]. rewrite Hevents, List.filter_app, length_app, Hone.
  by replace (_ + 1 - _)%nat with 1%nat by lia.
Qed.

(** C10.  Every entry of the Plugins group, bare checkbox or wrapper
    submenu, carries an enable/disable checkbox whose handler was built with
    [hasSubmenu = true] and the rebuild callback.  Clicking it, to either
    state, records the plugin's new state and starts [refreshMenu]: once the
    handler has returned, [refreshMenu] runs in the world the handler left
    and installs the whole tree built from that world, in which the checkbox
    of the plugin shows the new state. *)
Theorem C10_plugin_checkbox_requests_rebuild env templates w :
  Forall (λ entry,
            ∃ plugin,
              click (pluginCheckbox entry)
              = Some (clickPluginEnabled plugin true (Some innerRefreshMenu))
              ∧ ∀ loader inp state w',
                  let k :=
                    clickPluginEnabled plugin true (Some innerRefreshMenu) in
                  let clicked := (runClick env k inp state w').1 in
                  let settled :=
                    (clickAndRefresh env loader k inp state w').1 in
                  events clicked = events w' ++ [RefreshMenuRequested]
                  ∧ pluginsIsEnabled clicked plugin = state
                  ∧ settled = refreshMenu env (loader clicked) clicked
                  ∧ (∃ prefix,
                       applicationMenu settled
                       = Some (prefix
                               ++ mainMenuTemplate env (loader clicked) clicked)
                       ∧ length prefix
                         = (if isMacOS env then 1%nat else 0%nat))
                  ∧ checked (pluginCheckbox
                               (pluginMenu env (loader clicked) clicked plugin))
                    = Some (Js.boolean state))
         (pluginMenus env templates w).
Proof.
  unfold pluginMenus. apply Forall_map, Forall_forall. intros id _.
  destruct (pluginMenu_checkbox env templates w id) as [label ->].
  exists id. split; [done|]. intros loader inp state w'. cbv zeta.
  pose proof (runClick_pluginEnabled_events env id inp state w') as Hevents.
  pose proof (runClick_pluginEnabled_state env id true (Some innerRefreshMenu)
                inp state w') as Hstate.
  pose proof (clickAndRefresh_once env loader _ inp state w' _ Hevents
                eq_refl) as Hsettled.
  split; [done|]. split; [done|]. split; [done|]. split.
  - rewrite Hsettled. apply refreshMenu_rebuilds.
  - destruct (pluginMenu_checkbox env
                (loader (runClick env
                           (clickPluginEnabled id true (Some innerRefreshMenu))
                           inp state w').1)
                (runClick env
                   (clickPluginEnabled id true (Some innerRefreshMenu))
                   inp state w').1 id) as [label' ->].
    unfold pluginEnabledMenu. cbn [checked typedItem]. by rewrite Hstate.
Qed.

(** C2 (amended).  The Plugins group holds the entry of each plugin of the
    sorted list.  The entry of a disabled plugin is a plain checkbox toggling
    enablement.  The entry of an enabled plugin for which the loader holds a
    template is a submenu: the enabled-checkbox, a separator, then the
    contributed fragment.  An enabled plugin for which the loader holds no
    template gets the plain checkbox as well, and no wrapper. *)
Theorem C2_plugin_entry_shape env templates w :
  pluginMenus env templates w
  = map (pluginMenu env templates w) (sortedPlugins env)
  ∧ ∀ id,
      let toggle := clickPluginEnabled id true (Some innerRefreshMenu) in
      let bare :=
        typedItem (if bool_decide (pluginLabel env id = "")
                   then id else pluginLabel env id)
                  checkbox (Js.boolean (pluginsIsEnabled w id)) toggle in
      let enabledLabel := t env w "main.menu.plugins.enabled" in
      pluginMenu env templates w id
      = match property templates id with
        | Some template =>
            if pluginsIsEnabled w id
            then submenuItem (pluginLabel env id)
                   (typedItem (if bool_decide (enabledLabel = "")
                               then id else enabledLabel)
                              checkbox (Js.boolean true) toggle
                    :: separatorItem :: template)
            else bare
        | None => bare
        end.
Proof.
  split; [done|]. intros id; cbv zeta.
  destruct (property templates id) as [template|] eqn:Htpl.
  - destruct (pluginsIsEnabled w id) eqn:Hen.
    + rewrite (pluginMenu_enabled_template env templates w id template Hen Htpl).
      unfold pluginEnabledMenu. by rewrite Hen.
    + rewrite (pluginMenu_disabled env templates w id Hen).
      unfold pluginEnabledMenu. by rewrite Hen.
  - by rewrite (pluginMenu_no_template env templates w id Htpl).
Qed.

(** C2, as stated, fails: plugin "a" is enabled; when the loader holds no
    template for it its entry is a checked plain checkbox without submenu,
    and when the loader holds an empty template the wrapper has two children,
    the enabled-checkbox and a separator. *)
Lemma C2_enabled_without_template :
  pluginsIsEnabled exampleWorld "a" = true
  ∧ property (allPlugins exampleEnv) "a" ≠ None
  ∧ submenu (pluginMenu exampleEnv [] exampleWorld "a") = None
  ∧ type (pluginMenu exampleEnv [] exampleWorld "a") = Some checkbox
  ∧ isChecked (pluginMenu exampleEnv [] exampleWorld "a") = true
  ∧ submenu (pluginMenu exampleEnv [("a", [])] exampleWorld "a")
    = Some [ pluginEnabledMenu exampleWorld "a" "main.menu.plugins.enabled"
               true (Some innerRefreshMenu);
             separatorItem ].
Proof. vm_compute. repeat split; congruence. Qed.

(** The scenario of the spec: "a" enabled with one contributed action, "b"
    disabled. *)
Example plugins_scenario :
  pluginMenus exampleEnv exampleTemplates exampleWorld
  = [ submenuItem "alpha"
        [ typedItem "main.menu.plugins.enabled" checkbox (Js.boolean true)
            (clickPluginEnabled "a" true (Some innerRefreshMenu));
          separatorItem;
          actionItem "Do" (clickContributed "a" 0) ];
      typedItem "Beta" checkbox (Js.boolean false)
        (clickPluginEnabled "b" true (Some innerRefreshMenu)) ].
Proof. vm_compute. reflexivity. Qed.

(** ** Sorting *)

Section Sort.

Context {A : Type} (cmp : A → A → Z).

Local Abbreviation le := (cmpLe cmp).

Lemma sortInsert_Permutation x l : Permutation (sortInsert cmp x l) (x :: l).
Proof.
  induction l as [|y r IH]; simpl; [done|].
  destruct (cmp x y <=? 0)%Z; [done|].
  rewrite IH. apply perm_swap.
Qed.

Lemma arraySort_Permutation l : Permutation (arraySort cmp l) l.
Proof.
  induction l as [|x r IH]; simpl; [done|].
  rewrite sortInsert_Permutation. by constructor.
Qed.

Hypothesis cmp_total : ∀ a b, le a b ∨ le b a.
Hypothesis cmp_trans : ∀ a b c, le a b → le b c → le a c.

Lemma sortInsert_sorted x l :
  StronglySorted le l → StronglySorted le (sortInsert cmp x l).
Proof.
  induction 1 as [|y r Hr IH Hy]; simpl.
  - repeat constructor.
  - destruct (Z.leb_spec (cmp x y) 0) as [Hle|Hgt].
    + constructor; [by constructor|].
      constructor; [done|].
      eapply Forall_impl; [exact Hy|]. intros z Hz. by eapply cmp_trans.
    + constructor; [done|].
      rewrite sortInsert_Permutation. constructor; [|done].
      destruct (cmp_total x y) as [Hxy|Hyx]; [|done].
      unfold cmpLe in Hxy. lia.
Qed.

Lemma arraySort_sorted l : StronglySorted le (arraySort cmp l).
Proof.
  induction l as [|x r IH]; simpl; [constructor|].
  by apply sortInsert_sorted.
Qed.

End Sort.

(** The collation of the concrete instance is a total preorder. *)
Lemma lexCompare_total a b : (lexCompare a b <= 0 ∨ lexCompare b a <= 0)%Z.
Proof.
  revert b. induction a as [|x a IH]; intros [|y b]; simpl; try lia.
  destruct (Nat.ltb_spec x y), (Nat.ltb_spec y x); try lia. apply IH.
Qed.

Lemma lexCompare_trans a b c :
  (lexCompare a b <= 0 → lexCompare b c <= 0 → lexCompare a c <= 0)%Z.
Proof.
  revert b c. induction a as [|x a IH]; intros [|y b] [|z c]; simpl; try lia.
  destruct (Nat.ltb_spec x y), (Nat.ltb_spec y x), (Nat.ltb_spec y z),
    (Nat.ltb_spec z y), (Nat.ltb_spec x z), (Nat.ltb_spec z x);
    try lia. apply IH.
Qed.

Lemma lexCompare_antisym a b : lexCompare b a = (- lexCompare a b)%Z.
Proof.
  revert b. induction a as [|x a IH]; intros [|y b]; simpl; try done.
  destruct (Nat.ltb_spec x y), (Nat.ltb_spec y x); try lia. apply IH.
Qed.

Lemma lowerAscii_folds a :
  (let n := Ascii.nat_of_ascii (lowerAscii a) in
   if (65 <=? n)%nat && (n <=? 90)%nat then (n + 32)%nat else n)
  = (let n := Ascii.nat_of_ascii a in
     if (65 <=? n)%nat && (n <=? 90)%nat then (n + 32)%nat else n).
Proof.
  cbv zeta. unfold lowerAscii.
  destruct ((65 <=? Ascii.nat_of_ascii a)%nat
            && (Ascii.nat_of_ascii a <=? 90)%nat) eqn:Hupper.
  - apply andb_true_iff in Hupper as [Hlo%Nat.leb_le Hhi%Nat.leb_le].
    rewrite Ascii.nat_ascii_embedding by lia.
    destruct (Nat.leb_spec 65 (Ascii.nat_of_ascii a + 32)),
      (Nat.leb_spec (Ascii.nat_of_ascii a + 32) 90); simpl; lia.
  - by rewrite Hupper.
Qed.

Lemma foldCase_lowerCase s : foldCase (lowerCase s) = foldCase s.
Proof.
  unfold foldCase. induction s as [|a r IH]; [done|].
  cbn [lowerCase String.list_ascii_of_string map]. f_equal; [|exact IH].
  apply lowerAscii_folds.
Qed.

(** Comparing after folding is a case-insensitive collation. *)
Lemma foldedCompare_caseInsensitive : caseInsensitive foldedCompare.
Proof. intros a b. unfold foldedCompare. by rewrite !foldCase_lowerCase. Qed.

Lemma tertiaryCompare_le a b :
  (tertiaryCompare a b <= 0)%Z
  ↔ (foldedCompare a b < 0)%Z
    ∨ (foldedCompare a b = 0 ∧ lexCompare (rawCodes b) (rawCodes a) <= 0)%Z.
Proof.
  unfold tertiaryCompare. cbv zeta.
  destruct (Z.eqb_spec (foldedCompare a b) 0) as [Heq|Hne]; lia.
Qed.

Lemma tertiaryCompare_refines a b :
  (tertiaryCompare a b <= 0 → foldedCompare a b <= 0)%Z.
Proof. rewrite tertiaryCompare_le. lia. Qed.

Lemma tertiaryCompare_total a b :
  (tertiaryCompare a b <= 0 ∨ tertiaryCompare b a <= 0)%Z.
Proof.
  rewrite !tertiaryCompare_le. unfold foldedCompare.
  pose proof (lexCompare_antisym (foldCase a) (foldCase b)).
  pose proof (lexCompare_antisym (rawCodes a) (rawCodes b)).
  lia.
Qed.

Lemma tertiaryCompare_trans a b c :
  (tertiaryCompare a b <= 0 → tertiaryCompare b c <= 0 →
   tertiaryCompare a c <= 0)%Z.
Proof.
  rewrite !tertiaryCompare_le. unfold foldedCompare.
  pose proof (lexCompare_antisym (foldCase a) (foldCase b)).
  pose proof (lexCompare_antisym (foldCase b) (foldCase c)).
  pose proof (lexCompare_antisym (foldCase a) (foldCase c)).
  pose proof (lexCompare_trans (foldCase a) (foldCase b) (foldCase c)).
  pose proof (lexCompare_trans (foldCase c) (foldCase a) (foldCase b)).
  pose proof (lexCompare_trans (foldCase b) (foldCase c) (foldCase a)).
  pose proof (lexCompare_trans (rawCodes c) (rawCodes b) (rawCodes a)).
  lia.
Qed.

Lemma StronglySorted_weaken {A} (R R' : A → A → Prop) l :
  (∀ a b, R a b → R' a b) → StronglySorted R l → StronglySorted R' l.
Proof.
  intros Himpl. induction 1 as [|x r Hr IH Hx]; constructor; [done|].
  eapply Forall_impl; [exact Hx|]. intros y. apply Himpl.
Qed.

(** C5.  Whatever the enabled state of the plugins, the entries of the
    Plugins group carry, in order, the enable/disable checkboxes of the
    plugins of the sorted list, and that list is a rearrangement of the
    registered identifiers.  The list is ordered by display name under the
    host's collation, and therefore under every case-insensitive collation
    that the host's collation refines, the host's collation being a total
    preorder. *)
Theorem C5_plugin_entries_registered_and_sorted env templates w
    (collate : string → string → Z)
    (Hci : caseInsensitive collate)
    (Hrefines : ∀ a b, (localeCompare env a b <= 0)%Z → (collate a b <= 0)%Z)
    (Htotal : ∀ a b, (localeCompare env a b <= 0)%Z
                     ∨ (localeCompare env b a <= 0)%Z)
    (Htrans : ∀ a b c, (localeCompare env a b <= 0)%Z →
                       (localeCompare env b c <= 0)%Z →
                       (localeCompare env a c <= 0)%Z) :
  map (λ entry, toggledPlugin (pluginCheckbox entry))
      (pluginMenus env templates w)
  = map Some (sortedPlugins env)
  ∧ Permutation (sortedPlugins env) (keys (allPlugins env))
  ∧ StronglySorted
      (λ a b, (localeCompare env (pluginLabel env a) (pluginLabel env b) <= 0)%Z)
      (sortedPlugins env)
  ∧ StronglySorted
      (λ a b, (collate (lowerCase (pluginLabel env a))
                       (lowerCase (pluginLabel env b)) <= 0)%Z)
      (sortedPlugins env)
  ∧ StronglySorted
      (λ a b, (collate (pluginLabel env a) (pluginLabel env b) <= 0)%Z)
      (sortedPlugins env).
Proof.
  assert (Hsorted : StronglySorted
            (λ a b, (localeCompare env (pluginLabel env a)
                       (pluginLabel env b) <= 0)%Z) (sortedPlugins env)).
  { apply (arraySort_sorted
             (λ a b, localeCompare env (pluginLabel env a) (pluginLabel env b))).
    - intros a b. apply Htotal.
    - intros a b c. apply Htrans. }
  assert (Hcollate : StronglySorted
            (λ a b, (collate (pluginLabel env a) (pluginLabel env b) <= 0)%Z)
            (sortedPlugins env)).
  { eapply StronglySorted_weaken; [|exact Hsorted].
    intros a b. apply Hrefines. }
  split; [|split; [|split; [|split]]]; try done.
  - unfold pluginMenus. rewrite map_map. apply map_ext. intros id.
    by destruct (pluginMenu_checkbox env templates w id) as [label ->].
  - apply arraySort_Permutation.
  - eapply StronglySorted_weaken; [|exact Hcollate].
    intros a b. cbv beta. by rewrite Hci.
Qed.

(** C5 at an instance whose collation tells "ALPHA" from "alpha" and puts
    lower case first, the case-insensitive collation being the comparison
    after folding. *)
Lemma C5_witness :
  sortedPlugins tertiaryEnv = ["z"; "y"; "x"]
  ∧ StronglySorted
      (λ a b, (foldedCompare (pluginLabel tertiaryEnv a)
                             (pluginLabel tertiaryEnv b) <= 0)%Z)
      (sortedPlugins tertiaryEnv).
Proof.
  split; [reflexivity|].
  apply (C5_plugin_entries_registered_and_sorted tertiaryEnv exampleTemplates
           exampleWorld foldedCompare foldedCompare_caseInsensitive).
  - intros a b. apply tertiaryCompare_refines.
  - intros a b. apply tertiaryCompare_total.
  - intros a b c. apply tertiaryCompare_trans.
Defined.

(** ** The Options group *)

Lemma flattenItem_eq it :
  flattenItem it
  = it :: match submenu it with Some l => flatten l | None => [] end.
Proof. by destruct it as [? ? ? ? [sub|] ? ?]. Qed.

Lemma boundCheckboxes_app m1 m2 :
  boundCheckboxes (m1 ++ m2) = boundCheckboxes m1 ++ boundCheckboxes m2.
Proof. unfold boundCheckboxes, flatten. by rewrite flat_map_app, omap_app. Qed.

Lemma boundCheckboxes_cons it m :
  boundCheckboxes (it :: m)
  = option_list (boundCheckbox it)
    ++ match submenu it with Some l => boundCheckboxes l | None => [] end
    ++ boundCheckboxes m.
Proof.
  unfold boundCheckboxes, flatten. simpl flat_map.
  rewrite flattenItem_eq, omap_app. simpl.
  destruct (boundCheckbox it), (submenu it); simpl; by rewrite ?omap_app.
Qed.

(** A list of items that are neither checkboxes nor submenus binds nothing. *)
Lemma boundCheckboxes_leaves {A} (f : A → MenuItemConstructorOptions) xs :
  (∀ x, boundCheckbox (f x) = None ∧ submenu (f x) = None) →
  boundCheckboxes (map f xs) = [].
Proof.
  intros Hf. induction xs as [|x xs IH]; [done|].
  simpl map. rewrite boundCheckboxes_cons, IH.
  by destruct (Hf x) as [-> ->].
Qed.

Lemma boundCheckboxes_startingPageMenu env w :
  boundCheckboxes (startingPageMenu env w) = [].
Proof.
  unfold startingPageMenu. rewrite boundCheckboxes_cons.
  by rewrite boundCheckboxes_leaves.
Qed.

Lemma boundCheckboxes_languageMenu env w :
  boundCheckboxes (languageMenu env w) = [].
Proof. unfold languageMenu. by rewrite boundCheckboxes_leaves. Qed.

Lemma boundCheckboxes_advancedOptionsMenu env w :
  boundCheckboxes (advancedOptionsMenu env w)
  = map (λ path, (path, Some (configGet w path)))
        [ "options.overrideUserAgent"; "options.disableHardwareAcceleration";
          "options.restartOnConfigChanges"; "options.autoResetAppCache" ].
Proof. unfold advancedOptionsMenu. by destruct (isMacOS env). Qed.

(** The checkboxes of the Options group that are bound to a configuration
    path, each with the value of its path. *)
Lemma boundCheckboxes_optionsMenu env w :
  boundCheckboxes (optionsMenu env w)
  = map (λ path, (path, Some (configGet w path))) (checkboxPaths env).
Proof.
  unfold optionsMenu, checkboxPaths, hideMenuItems, startAtLoginItems.
  rewrite !boundCheckboxes_app, !boundCheckboxes_cons.
  cbn [submenu submenuItem typedItem separatorItem singleInstanceLockItem].
  rewrite boundCheckboxes_startingPageMenu, boundCheckboxes_languageMenu,
    boundCheckboxes_advancedOptionsMenu.
  by destruct (isWindows env || isLinux env), (isWindows env || isMacOS env).
Qed.

(** A handler bound to a path stores the new state of its item there. *)
Lemma runClick_bound env k path inp b w :
  boundPath k = Some path →
  configGet (runClick env k inp b w).1 path = Js.boolean b.
Proof.
  destruct k; simpl; intros [= <-].
  - apply configGet_setMenuOption_eq.
  - rewrite configGet_emit. apply configGet_setMenuOption_eq.
  - assert (Hget : ∀ w', configGet
                     (if b && negb (Js.truthy (configGet w' "options.hideMenuWarned"))
                      then emit (ShowMessageBox (Some "info")
                             (t env w' "main.menu.options.submenu.hide-menu.dialog.title")
                             (t env w' "main.menu.options.submenu.hide-menu.dialog.message"))
                             w'
                      else w') "options.hideMenu"
                   = configGet w' "options.hideMenu").
    { intros w'. by destruct (b && _). }
    rewrite Hget. apply configGet_setMenuOption_eq.
Qed.

(** C1 (amended).  The Options group is the second entry of the tree; its
    checkboxes bound to a configuration path are those of [checkboxPaths],
    each built with the value of its path as [checked]; a click that leaves
    such an item in state [b] stores [b] at the path, so that a rebuild shows
    [b]; the same holds of the enabled flag of every plugin.  The
    single-instance-lock item is part of the group and is bound to no
    configuration path: its handler leaves the configuration as it is. *)
Theorem C1_bound_checkboxes_reflect_config env templates w :
  mainMenuTemplate env templates w !! 1%nat
  = Some (submenuItem (t env w "main.menu.options.label") (optionsMenu env w))
  ∧ boundCheckboxes (optionsMenu env w)
    = map (λ path, (path, Some (configGet w path))) (checkboxPaths env)
  ∧ (∀ k path inp b,
       boundPath k = Some path →
       let w' := (runClick env k inp b w).1 in
       configGet w' path = Js.boolean b
       ∧ ∀ v, In (path, v) (boundCheckboxes (optionsMenu env w')) →
              v = Some (Js.boolean b))
  ∧ (∀ id,
       checked (pluginCheckbox (pluginMenu env templates w id))
       = Some (Js.boolean (pluginsIsEnabled w id))
       ∧ ∀ hasSubmenu cb inp b templates',
           let w' := (runClick env (clickPluginEnabled id hasSubmenu cb)
                                inp b w).1 in
           checked (pluginCheckbox (pluginMenu env templates' w' id))
           = Some (Js.boolean b))
  ∧ In (singleInstanceLockItem env w) (optionsMenu env w)
  ∧ itemBoundPath (singleInstanceLockItem env w) = None
  ∧ ∀ inp b, config (runClick env clickSingleInstanceLock inp b w).1 = config w.
Proof.
  assert (Hplugin : ∀ tpl w0 id,
            checked (pluginCheckbox (pluginMenu env tpl w0 id))
            = Some (Js.boolean (pluginsIsEnabled w0 id))).
  { intros tpl w0 id. by destruct (pluginMenu_checkbox env tpl w0 id) as [l ->]. }
  repeat split.
  - apply boundCheckboxes_optionsMenu.
  - by apply runClick_bound.
  - intros v. rewrite boundCheckboxes_optionsMenu, in_map_iff.
    intros (path' & [= <- <-] & _). f_equal. by apply runClick_bound.
  - apply Hplugin.
  - intros. subst w'. by rewrite Hplugin, runClick_pluginEnabled_state.
  - unfold optionsMenu. rewrite !in_app_iff. left. simpl. tauto.
  - intros inp b. simpl.
    by destruct b, (hasSingleInstanceLock w).
Qed.

(** C1, as stated, fails on the single-instance-lock item: unchecking it
    releases the lock and writes nothing to the configuration, and the
    rebuilt item is checked although the item was left unchecked. *)
Lemma C1_single_instance_lock_stays_checked :
  let before := singleInstanceLockItem exampleEnv exampleWorld in
  let after := activate exampleEnv before exampleInput true exampleWorld in
  let rebuilt := singleInstanceLockItem exampleEnv after.1 in
  type before = Some checkbox
  ∧ In rebuilt (optionsMenu exampleEnv after.1)
  ∧ after.2 = false
  ∧ hasSingleInstanceLock after.1 = false
  ∧ config after.1 = config exampleWorld
  ∧ isChecked rebuilt = true
  ∧ isChecked rebuilt ≠ after.2.
Proof.
  cbv zeta. repeat split; try reflexivity.
  - unfold optionsMenu. rewrite !in_app_iff. left. simpl. tauto.
  - vm_compute. discriminate.
Qed.

(** ** The proxy prompt *)

Lemma setProxy_confirm output inp checked w :
  setProxy (answering (Some output) inp) checked w
  = (configSetMenuOption "options.proxy" (Js.str output) w,
     negb (bool_decide (output = ""))).
Proof. reflexivity. Qed.

Lemma setProxy_cancel inp checked w :
  setProxy (answering None inp) checked w = (w, negb checked).
Proof. reflexivity. Qed.

(** C3.  The set-proxy item is a [normal] item of the advanced submenu, so
    the toolkit hands it to [setProxy] with its [checked] property as it
    was.  Confirming with a string stores the string at the proxy path and
    leaves the item checked exactly when the string is not empty.
    Cancelling stores nothing, and leaves the item with the negation of the
    [checked] property it had: the property is not back to its prior state. *)
Theorem C3_set_proxy_cancel_negates_checked env inp checked w :
  let item :=
    normalItem
      (t env w "main.menu.options.submenu.advanced-options.submenu.set-proxy.label")
      clickSetProxy in
  advancedOptionsMenu env w !! 0%nat = Some item
  ∧ (∀ output,
       let r := activate env item (answering (Some output) inp) checked w in
       configGet r.1 "options.proxy" = Js.str output
       ∧ r.2 = negb (bool_decide (output = "")))
  ∧ (let r := activate env item (answering None inp) checked w in
     r.1 = w ∧ r.2 = negb checked ∧ r.2 ≠ checked).
Proof.
  cbv zeta. split; [done|]. split.
  - intros output. unfold activate; simpl. split; [|done].
    apply configGet_setMenuOption_eq.
  - unfold activate; simpl. repeat split. by destruct checked.
Qed.

(** The item starts unchecked; the prompt is cancelled; the item ends up
    checked and the configuration is as before. *)
Example set_proxy_cancelled :
  activate exampleEnv
    (normalItem "main.menu.options.submenu.advanced-options.submenu.set-proxy.label"
       clickSetProxy)
    (answering None exampleInput) false exampleWorld
  = (exampleWorld, true).
Proof. reflexivity. Qed.

(** ** The theme submenu *)

(** Without a [filePaths] array the handler leaves the world as it is. *)
Lemma runClick_importCssFile_undefined env inp checked w :
  openDialogFilePaths inp = None →
  runClick env clickImportCssFile inp checked w = (w, checked).
Proof. simpl. by intros ->. Qed.

(** C4.  The import-css-file handler stores the [filePaths] array of the
    dialog at the themes path whenever there is an array, the empty one
    included: after a cancelled dialog the configured theme list is
    overwritten with the empty list. *)
Theorem C4_import_css_file_stores_any_selection env inp checked w :
  (∀ files,
     configGet (runClick env clickImportCssFile (picking files inp) checked w).1
               "options.themes"
     = Js.array files)
  ∧ ∀ prior,
      configGet
        (runClick env clickImportCssFile (picking [] inp) checked
           (configSet "options.themes" (Js.array ["x.css"]) prior)).1
        "options.themes"
      = Js.array [].
Proof.
  split; intros; simpl; apply configGet_configSet_eq.
Qed.

(** C9.  The theme submenu is the no-theme radio item, a separator and the
    import-css-file item.  Selecting no-theme stores the empty list at the
    themes path; selecting import-css-file and picking "a.css" stores the
    list holding "a.css"; and the no-theme item is built checked exactly
    when the configured theme list has length zero. *)
Theorem C9_theme_selection env inp checked w :
  map click (themeMenu env w)
  = [Some clickNoTheme; None; Some clickImportCssFile]
  ∧ configGet (runClick env clickNoTheme inp checked w).1 "options.themes"
    = Js.array []
  ∧ configGet (runClick env clickImportCssFile (picking ["a.css"] inp)
                        checked w).1 "options.themes"
    = Js.array ["a.css"]
  ∧ (∃ noTheme rest,
       themeMenu env w = noTheme :: rest
       ∧ click noTheme = Some clickNoTheme
       ∧ type noTheme = Some radio
       ∧ (isChecked noTheme = true
          ↔ Js.opt_length (configGet w "options.themes") = Some 0%nat)
       ∧ ∀ themes, configGet w "options.themes" = Js.array themes →
                   (isChecked noTheme = true ↔ length themes = 0%nat)).
Proof.
  split; [done|]. split; [apply configGet_configSet_eq|].
  split; [apply configGet_configSet_eq|].
  eexists _, _. split; [reflexivity|]. split; [done|]. split; [done|].
  unfold isChecked; simpl. split.
  - destruct (Js.opt_length _) as [[|n]|]; simpl; split; congruence.
  - intros themes ->. simpl.
    destruct themes; simpl; split; congruence.
Qed.

(** ** The language submenu *)

Lemma runClick_language_events env lang inp checked w :
  events (runClick env (clickLanguage lang) inp checked w).1
  = events w
    ++ [ RestartPromptMarked "options.language";
         RefreshMenuRequested;
         SetLanguage lang;
         ShowMessageBox None
           (translate env lang "main.menu.options.submenu.language.dialog.title")
           (translate env lang
              "main.menu.options.submenu.language.dialog.message") ].
Proof. simpl. by rewrite <- !app_assoc. Qed.

Lemma runClick_language_config env lang inp checked w :
  configGet (runClick env (clickLanguage lang) inp checked w).1
            "options.language"
  = Js.str lang.
Proof. simpl. apply configGet_configSet_eq. Qed.

(** C7 (amended).  The language submenu holds one checkbox item per
    available language bundle, in the order of the bundles, each with the
    handler of its language and checked when the configured language is that
    bundle.  Selecting a language stores it at the language path, starts
    [refreshMenu], reloads the language resolver and shows a message box, in
    this order; once the handler has returned, [refreshMenu] runs in the
    world the handler left and installs the whole tree built from that
    world, in which the item of the selected language is the checked one. *)
Theorem C7_language_menu env w :
  map click (languageMenu env w)
  = map (λ lang, Some (clickLanguage lang)) (keys (languageResources env))
  ∧ map checked (languageMenu env w)
    = map (λ lang,
             Some (Js.strict_eq_str (configGet w "options.language") lang))
          (keys (languageResources env))
  ∧ Forall (λ it, type it = Some checkbox) (languageMenu env w)
  ∧ ∀ loader lang inp state,
      let clicked := (runClick env (clickLanguage lang) inp state w).1 in
      let settled :=
        (clickAndRefresh env loader (clickLanguage lang) inp state w).1 in
      configGet clicked "options.language" = Js.str lang
      ∧ (∃ title message,
           events clicked
           = events w
             ++ [ RestartPromptMarked "options.language";
                  RefreshMenuRequested;
                  SetLanguage lang;
                  ShowMessageBox None title message ])
      ∧ settled = refreshMenu env (loader clicked) clicked
      ∧ (∃ prefix,
           applicationMenu settled
           = Some (prefix ++ mainMenuTemplate env (loader clicked) clicked)
           ∧ length prefix = (if isMacOS env then 1%nat else 0%nat))
      ∧ map checked (languageMenu env clicked)
        = map (λ other, Some (Js.boolean (bool_decide (lang = other))))
              (keys (languageResources env)).
Proof.
  split; [|split; [|split]].
  - unfold languageMenu. rewrite map_map. by apply map_ext.
  - unfold languageMenu. rewrite map_map. by apply map_ext.
  - unfold languageMenu. by apply Forall_map, Forall_forall.
  - intros loader lang inp state. cbv zeta.
    pose proof (runClick_language_events env lang inp state w) as Hevents.
    pose proof (runClick_language_config env lang inp state w) as Hconfig.
    pose proof (clickAndRefresh_once env loader _ inp state w _ Hevents
                  eq_refl) as Hsettled.
    split; [done|]. split; [by eexists _, _|]. split; [done|]. split.
    + rewrite Hsettled. apply refreshMenu_rebuilds.
    + unfold languageMenu. rewrite map_map, Hconfig. by apply map_ext.
Qed.

(** C7, as stated, fails: the items of the language submenu are not radio
    items. *)
Lemma C7_language_items_are_checkboxes :
  ¬ Forall (λ it, type it = Some radio)
           (languageMenu exampleEnv exampleWorld).
Proof. intros H. by inversion H. Qed.

(** ** The hide-menu dialog *)

Lemma dialogsShown_emit e w :
  dialogsShown (emit e w)
  = (dialogsShown w + if isMessageBox e then 1 else 0)%nat.
Proof.
  unfold dialogsShown; simpl. rewrite List.filter_app, length_app; simpl.
  by destruct (isMessageBox e).
Qed.

Lemma runClick_hideMenu env inp checked w :
  let w' := (runClick env clickHideMenu inp checked w).1 in
  configGet w' "options.hideMenuWarned" = configGet w "options.hideMenuWarned"
  ∧ dialogsShown w'
    = (dialogsShown w
       + if checked && negb (Js.truthy (configGet w "options.hideMenuWarned"))
         then 1 else 0)%nat.
Proof.
  cbv zeta. simpl.
  rewrite (configGet_setMenuOption_ne "options.hideMenu"
             "options.hideMenuWarned") by done.
  destruct (checked && _).
  - rewrite configGet_emit, configGet_setMenuOption_ne by done.
    split; [done|]. unfold configSetMenuOption.
    rewrite !dialogsShown_emit; simpl. unfold dialogsShown; simpl. lia.
  - rewrite configGet_setMenuOption_ne by done.
    split; [done|]. unfold configSetMenuOption.
    rewrite !dialogsShown_emit; simpl. unfold dialogsShown; simpl. lia.
Qed.

(** The hide-menu handler shows the dialog exactly when it leaves the item
    checked while the warned flag is unset, and it does not write the flag;
    so, over any sequence of toggles, no dialog is shown when the flag is
    set, and one dialog is shown per enabling click when it is not. *)
Theorem hide_menu_dialog_per_enable env inp w :
  (∀ checked,
     let w' := (runClick env clickHideMenu inp checked w).1 in
     configGet w' "options.hideMenuWarned"
     = configGet w "options.hideMenuWarned"
     ∧ dialogsShown w'
       = (dialogsShown w
          + if checked && negb (Js.truthy (configGet w "options.hideMenuWarned"))
            then 1 else 0)%nat)
  ∧ ∀ states,
      dialogsShown (hideMenuToggles env inp states w)
      = (dialogsShown w
         + if Js.truthy (configGet w "options.hideMenuWarned")
           then 0
           else length (List.filter id states))%nat.
Proof.
  split; [intros; apply runClick_hideMenu|].
  intros states. revert w.
  induction states as [|checked states IH]; intros w.
  - simpl. destruct (Js.truthy _); lia.
  - unfold hideMenuToggles in *. cbn [foldl].
    rewrite IH.
    destruct (runClick_hideMenu env inp checked w) as [-> ->].
    destruct (Js.truthy _), checked; simpl; lia.
Qed.

(** C8.  The hide-menu item is part of the Options group and its handler
    gates the dialog on the warned flag; the flag being unset, enabling
    hide-menu, disabling it and enabling it again shows the dialog twice:
    the handler does not record that the warning has been given. *)
Lemma C8_dialog_shown_twice :
  Js.truthy (configGet exampleWorld "options.hideMenuWarned") = false
  ∧ In (typedItem "main.menu.options.submenu.hide-menu.label" checkbox
          (configGet exampleWorld "options.hideMenu") clickHideMenu)
       (optionsMenu exampleEnv exampleWorld)
  ∧ dialogsShown
      (hideMenuToggles exampleEnv exampleInput [true; false; true] exampleWorld)
    = 2%nat
  ∧ Js.truthy
      (configGet
         (hideMenuToggles exampleEnv exampleInput [true; false; true]
            exampleWorld)
         "options.hideMenuWarned")
    = false.
Proof.
  split; [reflexivity|]. split; [|split; reflexivity].
  unfold optionsMenu. rewrite !in_app_iff. right; left. simpl. tauto.
Qed.

(** ** The groups of mutually exclusive items *)

Section Choices.

(** Items built from a list of names, the item of [name] being checked
    when [name] is the configured string [s]. *)
Variable f : string → MenuItemConstructorOptions.
Variable K : string → Click.
Variable s : string.
Hypothesis f_checked : ∀ name, isChecked (f name) = bool_decide (s = name).
Hypothesis f_click : ∀ name, click (f name) = Some (K name).

Lemma checkedClicks_absent names :
  ¬ In s names → checkedClicks (map f names) = [].
Proof.
  unfold checkedClicks.
  induction names as [|x r IH]; simpl; [done|]. intros Hnot.
  rewrite f_checked, bool_decide_eq_false_2.
  - apply IH. intros Hin. apply Hnot. by right.
  - intros ->. apply Hnot. by left.
Qed.

Lemma checkedClicks_present names :
  NoDup names → In s names → checkedClicks (map f names) = [Some (K s)].
Proof.
  induction 1 as [|x r Hx Hr IH]; simpl; [done|]. intros [->|Hin].
  - unfold checkedClicks; simpl.
    rewrite f_checked, bool_decide_eq_true_2 by done. simpl.
    rewrite f_click. f_equal. apply checkedClicks_absent.
    by rewrite <- list_elem_of_In.
  - unfold checkedClicks; simpl.
    rewrite f_checked, bool_decide_eq_false_2; [by apply IH|].
    intros ->. by apply Hx, list_elem_of_In.
Qed.

End Choices.

Section Groups.

Variable env : Env.
Hypothesis pages_distinct : NoDup (startingPages env).
Hypothesis pages_named : ¬ In "" (startingPages env).
Hypothesis languages_distinct : NoDup (keys (languageResources env)).

Lemma startingPageMenu_checked w name :
  configGet w "options.startingPage" = Js.str name →
  name = "" ∨ In name (startingPages env) →
  checkedClicks (startingPageMenu env w) = [Some (clickStartingPage name)].
Proof.
  intros Hget Hname. unfold startingPageMenu. rewrite Hget.
  destruct Hname as [->|Hin].
  - unfold checkedClicks at 1. cbn [List.filter isChecked checked typedItem
      Js.strict_eq_str Js.truthy map click].
    rewrite bool_decide_eq_true_2 by done. simpl. f_equal.
    by apply (checkedClicks_absent _ "").
  - unfold checkedClicks at 1. cbn [List.filter isChecked checked typedItem
      Js.strict_eq_str Js.truthy map click].
    rewrite bool_decide_eq_false_2 by (intros ->; tauto).
    by apply (checkedClicks_present _ clickStartingPage name).
Qed.

Lemma likeButtonsMenu_checked w v :
  In v [""; "force"; "hide"] →
  configGet w "options.likeButtons" = Js.str v →
  checkedClicks (likeButtonsMenu env w) = [Some (clickLikeButtons v)].
Proof.
  intros Hv Hget. unfold likeButtonsMenu. rewrite Hget.
  simpl in Hv. by destruct Hv as [<-|[<-|[<-|[]]]].
Qed.

Lemma trayMenu_checked w :
  checkedClicks (radioItems (trayMenu env w))
  = [ Some (if Js.truthy (configGet w "options.tray")
            then clickTray true (Js.truthy (configGet w "options.appVisible"))
            else clickTray false true) ].
Proof.
  unfold trayMenu. generalize (configGet w "options.tray") as tray.
  generalize (configGet w "options.appVisible") as appVisible.
  intros appVisible tray.
  unfold checkedClicks, radioItems, isChecked, Js.and, Js.not. simpl.
  destruct (Js.truthy tray) eqn:Htray; simpl; rewrite ?Htray; simpl; [|done].
  by destruct (Js.truthy appVisible).
Qed.

Lemma themeMenu_checked w :
  checkedClicks (radioItems (themeMenu env w))
  = match Js.opt_length (configGet w "options.themes") with
    | Some 0%nat => [Some clickNoTheme]
    | _ => []
    end.
Proof.
  unfold themeMenu, checkedClicks, radioItems, isChecked. simpl.
  by destruct (Js.opt_length _) as [[|n]|].
Qed.

Lemma languageMenu_checked w lang :
  configGet w "options.language" = Js.str lang →
  In lang (keys (languageResources env)) →
  checkedClicks (languageMenu env w) = [Some (clickLanguage lang)].
Proof.
  intros Hget Hin. unfold languageMenu. rewrite Hget.
  by apply (checkedClicks_present _ clickLanguage lang).
Qed.

Lemma startingPageMenu_selecting w :
  selectingChecks env (startingPageMenu env) w.
Proof.
  unfold selectingChecks, startingPageMenu at 2. constructor.
  - intros k inp c [= <-]. apply startingPageMenu_checked; [|by left].
    apply configGet_configSet_eq.
  - apply Forall_map, Forall_forall. intros name Hin k inp c [= <-].
    apply startingPageMenu_checked.
    + apply configGet_configSet_eq.
    + right. by apply list_elem_of_In.
Qed.

Lemma likeButtonsMenu_selecting w :
  selectingChecks env (likeButtonsMenu env) w.
Proof.
  unfold selectingChecks, likeButtonsMenu at 2.
  repeat constructor; intros k inp c [= <-];
    (apply likeButtonsMenu_checked;
     [simpl; tauto | apply configGet_configSet_eq]).
Qed.

Lemma trayMenu_selecting w :
  selectingChecks env (λ w, radioItems (trayMenu env w)) w.
Proof.
  apply Forall_forall. intros it Hin%list_elem_of_In k inp c Hk.
  rewrite trayMenu_checked. simpl in Hin.
  destruct Hin as [<-|[<-|[<-|[]]]]; injection Hk as <-; cbn [runClick fst];
    rewrite (configGet_setMenuOption_ne "options.appVisible" "options.tray")
      by done;
    by rewrite !configGet_setMenuOption_eq.
Qed.

Lemma themeMenu_selecting w :
  selectingChecks env (λ w, radioItems (themeMenu env w)) w.
Proof.
  apply Forall_forall. intros it Hin%list_elem_of_In k inp c Hk.
  rewrite themeMenu_checked. simpl in Hin.
  destruct Hin as [<-|[]]; injection Hk as <-; cbn [runClick fst].
  by rewrite configGet_configSet_eq.
Qed.

Lemma languageMenu_selecting w :
  selectingChecks env (languageMenu env) w.
Proof.
  unfold selectingChecks, languageMenu at 2.
  apply Forall_map, Forall_forall. intros lang Hin k inp c [= <-].
  apply languageMenu_checked.
  - apply runClick_language_config.
  - by apply list_elem_of_In.
Qed.

End Groups.

(** C6 (amended).  Provided the starting-page names are distinct and none is
    empty, and the language bundles are distinct: the starting-page group has
    exactly one checked item, that of the configured page, when the
    configured page is unset or a known name; the like-buttons group has
    exactly one, that of the configured mode, when the mode is one of the
    three; the radio items of the tray group always have exactly one, that
    of the configured tray mode; the language group, made of checkboxes, has
    exactly one, that of the configured language, when it is an available
    bundle; the theme group has a single radio item, no-theme, which is
    checked when the configured theme list is empty, and the group has no
    checked item otherwise.  In each group, selecting a radio item (a
    checkbox for the language group) and rebuilding yields exactly one
    checked item, the one selected. *)
Theorem C6_groups_checked_item_matches_config env w
    (Hpages : NoDup (startingPages env))
    (Hunset : ¬ In "" (startingPages env))
    (Hlangs : NoDup (keys (languageResources env))) :
  (∀ name,
     configGet w "options.startingPage" = Js.str name →
     name = "" ∨ In name (startingPages env) →
     checkedClicks (startingPageMenu env w) = [Some (clickStartingPage name)])
  ∧ (∀ v,
       In v [""; "force"; "hide"] →
       configGet w "options.likeButtons" = Js.str v →
       checkedClicks (likeButtonsMenu env w) = [Some (clickLikeButtons v)])
  ∧ checkedClicks (radioItems (trayMenu env w))
    = [ Some (if Js.truthy (configGet w "options.tray")
              then clickTray true (Js.truthy (configGet w "options.appVisible"))
              else clickTray false true) ]
  ∧ (∀ lang,
       configGet w "options.language" = Js.str lang →
       In lang (keys (languageResources env)) →
       checkedClicks (languageMenu env w) = [Some (clickLanguage lang)])
  ∧ radioItems (themeMenu env w)
    = [ typedItem
          (t env w "main.menu.options.submenu.visual-tweaks.submenu.theme.submenu.no-theme")
          radio (Js.opt_length_is_zero (configGet w "options.themes"))
          clickNoTheme ]
  ∧ checkedClicks (themeMenu env w)
    = match Js.opt_length (configGet w "options.themes") with
      | Some 0%nat => [Some clickNoTheme]
      | _ => []
      end
  ∧ selectingChecks env (startingPageMenu env) w
  ∧ selectingChecks env (likeButtonsMenu env) w
  ∧ selectingChecks env (λ w, radioItems (trayMenu env w)) w
  ∧ selectingChecks env (languageMenu env) w
  ∧ selectingChecks env (λ w, radioItems (themeMenu env w)) w.
Proof.
  repeat split.
  - intros name. by apply startingPageMenu_checked.
  - intros v. apply likeButtonsMenu_checked.
  - apply trayMenu_checked.
  - intros lang. by apply languageMenu_checked.
  - apply (themeMenu_checked env w).
  - by apply startingPageMenu_selecting.
  - apply likeButtonsMenu_selecting.
  - apply trayMenu_selecting.
  - by apply languageMenu_selecting.
  - apply themeMenu_selecting.
Qed.

Lemma exampleEnv_pages_distinct : NoDup (startingPages exampleEnv).
Proof. apply (bool_decide_unpack _). vm_compute. exact I. Defined.

Lemma exampleEnv_pages_named : ¬ In "" (startingPages exampleEnv).
Proof. simpl. intros [H|[H|[]]]; discriminate H. Defined.

Lemma exampleEnv_languages_distinct :
  NoDup (keys (languageResources exampleEnv)).
Proof. apply (bool_decide_unpack _). vm_compute. exact I. Defined.

(** C6 at the concrete instance: "Library" configured as starting page, and
    selections in the starting-page and language groups. *)
Lemma C6_witness :
  checkedClicks (startingPageMenu exampleEnv
                   (configSet "options.startingPage" (Js.str "Library")
                      exampleWorld))
  = [Some (clickStartingPage "Library")]
  ∧ selectingChecks exampleEnv (startingPageMenu exampleEnv) exampleWorld
  ∧ selectingChecks exampleEnv (languageMenu exampleEnv) exampleWorld.
Proof.
  pose proof (C6_groups_checked_item_matches_config exampleEnv
                (configSet "options.startingPage" (Js.str "Library")
                   exampleWorld)
                exampleEnv_pages_distinct exampleEnv_pages_named
                exampleEnv_languages_distinct) as H1.
  pose proof (C6_groups_checked_item_matches_config exampleEnv exampleWorld
                exampleEnv_pages_distinct exampleEnv_pages_named
                exampleEnv_languages_distinct) as H2.
  split; [|split].
  - apply (proj1 H1 "Library"); [reflexivity|]. right. simpl. tauto.
  - apply H2.
  - apply H2.
Defined.

(** C6, as stated, fails on the theme group: after import-css-file with
    "a.css" picked, the rebuilt theme group has no checked item. *)
Lemma C6_theme_group_without_checked_item :
  let w1 := (runClick exampleEnv clickImportCssFile
               (picking ["a.css"] exampleInput) false exampleWorld).1 in
  configGet w1 "options.themes" = Js.array ["a.css"]
  ∧ List.filter isChecked (themeMenu exampleEnv w1) = []
  ∧ checkedClicks (radioItems (themeMenu exampleEnv w1)) = [].
Proof. cbv zeta. repeat split; reflexivity. Qed.

(** ** Further properties: what building and refreshing depend on *)




(** ** Further properties: what a click can change *)

Lemma pluginsIsEnabled_enable_ne p q w :
  p ≠ q → pluginsIsEnabled (pluginsEnable p w) q = pluginsIsEnabled w q.
Proof.
  intros Hne. unfold pluginsIsEnabled, pluginsEnable; simpl.
  apply bool_decide_ext. rewrite elem_of_union, elem_of_singleton.
  split; [intros [->|]; [done|done]|by right].
Qed.

Lemma pluginsIsEnabled_disable_ne p q w :
  p ≠ q → pluginsIsEnabled (pluginsDisable p w) q = pluginsIsEnabled w q.
Proof.
  intros Hne. unfold pluginsIsEnabled, pluginsDisable; simpl.
  apply bool_decide_ext. rewrite elem_of_difference, elem_of_singleton.
  split; [by intros [? _]|]. intros Hin. split; [done|]. by intros ->.
Qed.

(** X3.  A click on an item of this module writes no option path outside
    [writtenPaths]: every other path reads after the click as it did before,
    whatever the user answers to the dialogs.  (What the handlers of the
    fragments contributed by plugins write is up to the plugins.) *)
Theorem runClick_writes_only_its_paths env k inp checked w path :
  ownClick k = true →
  ¬ In path (writtenPaths k) →
  configGet (runClick env k inp checked w).1 path = configGet w path.
Proof.
  intros Hown Hnot.
  assert (Hset : ∀ p v w', In p (writtenPaths k) →
            configGet (configSet p v w') path = configGet w' path).
  { intros p v w' Hin. apply configGet_configSet_ne. by intros ->. }
  assert (Hopt : ∀ p v w', In p (writtenPaths k) →
            configGet (configSetMenuOption p v w') path = configGet w' path).
  { intros p v w' Hin. apply configGet_setMenuOption_ne. by intros ->. }
  destruct k as [p hs cb|path0|name0|v0| | | | | |tr av|lang| | | | | | | |p n];
    simpl in *.
  - by destruct checked, hs, cb as [[]|].
  - apply Hopt. by left.
  - apply Hset. by left.
  - apply Hset. by left.
  - apply Hset. by left.
  - destruct (openDialogFilePaths inp); simpl; [|done]. apply Hset. by left.
  - by destruct checked, (hasSingleInstanceLock w).
  - rewrite configGet_emit. apply Hopt. by left.
  - destruct (checked && _); rewrite ?configGet_emit; apply Hopt; by left.
  - rewrite !Hopt; [done| |]; simpl; tauto.
  - rewrite !configGet_emit.
    change (configGet (withLanguage lang ?w') path) with (configGet w' path).
    rewrite configGet_emit. apply Hopt. by left.
  - unfold setProxy. destruct (promptOutput inp); simpl; [|done].
    apply Hopt. by left.
  - done.
  - done.
  - by destruct (canGoBack w).
  - by destruct (canGoForward w).
  - done.
  - done.
  - done.
Qed.

(** X3 at the concrete instance: selecting a tray mode leaves the starting
    page as it was. *)
Lemma runClick_writes_only_its_paths_witness :
  configGet (runClick exampleEnv (clickTray true false) exampleInput true
               exampleWorld).1 "options.startingPage"
  = configGet exampleWorld "options.startingPage".
Proof.
  apply (runClick_writes_only_its_paths exampleEnv (clickTray true false)
           exampleInput true exampleWorld "options.startingPage").
  - reflexivity.
  - simpl. intros [H|[H|[]]]; discriminate H.
Defined.

(** X4.  Among the items of this module, the enabled flag of a plugin
    changes only through a click on the checkbox of that very plugin, which
    sets it to the new state of the item; every other click, and the
    checkbox of any other plugin, leaves it as it was. *)
Theorem runClick_plugin_flags env k inp checked w q :
  ownClick k = true →
  pluginsIsEnabled (runClick env k inp checked w).1 q
  = match k with
    | clickPluginEnabled p _ _ =>
        if bool_decide (p = q) then checked else pluginsIsEnabled w q
    | _ => pluginsIsEnabled w q
    end.
Proof.
  intros Hown.
  destruct k as [p hs cb|path0|name0|v0| | | | | |tr av|lang| | | | | | | |p n];
    simpl; try reflexivity; try discriminate Hown.
  - destruct (bool_decide_reflect (p = q)) as [->|Hne].
    + apply (runClick_pluginEnabled_state env q hs cb inp checked w).
    + assert (Hemit : ∀ e w', pluginsIsEnabled (emit e w') q
                              = pluginsIsEnabled w' q) by done.
      destruct checked, hs, cb as [[]|]; simpl;
        rewrite ?Hemit;
        auto using pluginsIsEnabled_enable_ne, pluginsIsEnabled_disable_ne.
  - by destruct (openDialogFilePaths inp).
  - by destruct checked, (hasSingleInstanceLock w).
  - by destruct (checked && _).
  - unfold setProxy. by destruct (promptOutput inp).
  - by destruct (canGoBack w).
  - by destruct (canGoForward w).
Qed.

(** X4 at the concrete instance: disabling plugin "a" leaves "b" as it
    was. *)
Lemma runClick_plugin_flags_witness :
  pluginsIsEnabled
    (runClick exampleEnv (clickPluginEnabled "a" true (Some innerRefreshMenu))
       exampleInput false exampleWorld).1 "b"
  = pluginsIsEnabled exampleWorld "b".
Proof.
  apply (runClick_plugin_flags exampleEnv
           (clickPluginEnabled "a" true (Some innerRefreshMenu))
           exampleInput false exampleWorld "b").
  reflexivity.
Defined.

(** X8.  Among the items of this module, the process-wide lock changes only
    through the single-instance-lock item: unchecking it always ends without
    the lock; checking it keeps a lock that is held and otherwise ends with
    what the request returned. *)
Theorem runClick_single_instance_lock env k inp checked w :
  ownClick k = true →
  hasSingleInstanceLock (runClick env k inp checked w).1
  = match k with
    | clickSingleInstanceLock =>
        if checked then hasSingleInstanceLock w || lockGranted inp else false
    | _ => hasSingleInstanceLock w
    end.
Proof.
  intros Hown.
  destruct k as [p hs cb|path0|name0|v0| | | | | |tr av|lang| | | | | | | |p n];
    simpl; try reflexivity; try discriminate Hown.
  - by destruct checked, hs, cb as [[]|].
  - by destruct (openDialogFilePaths inp).
  - by destruct checked, (hasSingleInstanceLock w) eqn:Hlock.
  - by destruct (checked && _).
  - unfold setProxy. by destruct (promptOutput inp).
  - by destruct (canGoBack w).
  - by destruct (canGoForward w).
Qed.

(** X8 at the concrete instance: the lock is held, the item is unchecked,
    and the lock is released. *)
Lemma runClick_single_instance_lock_witness :
  hasSingleInstanceLock
    (runClick exampleEnv clickSingleInstanceLock exampleInput false
       exampleWorld).1
  = false.
Proof.
  apply (runClick_single_instance_lock exampleEnv clickSingleInstanceLock
           exampleInput false exampleWorld).
  reflexivity.
Defined.

(** Counting events of one kind after a handler has run: the log is the
    log as it was followed by the events the handler emitted. *)
Ltac count_emitted :=
  unfold rebuildsRequested, dialogsShown; simpl;
  rewrite ?List.filter_app, ?length_app; simpl; lia.

(** X6.  Among the items of this module, a rebuild of the menu is requested
    by exactly two kinds of click: the selection of a language, and a plugin
    checkbox built with [hasSubmenu] and a callback; each requests one
    rebuild.  No option checkbox, radio item, prompt or navigation entry
    requests any. *)
Theorem runClick_rebuild_requests env k inp checked w :
  ownClick k = true →
  rebuildsRequested (runClick env k inp checked w).1
  = (rebuildsRequested w
     + match k with
       | clickLanguage _ => 1
       | clickPluginEnabled _ true (Some _) => 1
       | _ => 0
       end)%nat.
Proof.
  intros Hown.
  destruct k as [p hs cb|path0|name0|v0| | | | | |tr av|lang| | | | | | | |p n];
    simpl; try discriminate Hown.
  - destruct checked, hs, cb as [[]|]; simpl; count_emitted.
  - count_emitted.
  - count_emitted.
  - count_emitted.
  - count_emitted.
  - destruct (openDialogFilePaths inp); simpl; count_emitted.
  - destruct checked, (hasSingleInstanceLock w) eqn:Hlock; simpl; count_emitted.
  - count_emitted.
  - destruct (checked && _); count_emitted.
  - count_emitted.
  - count_emitted.
  - unfold setProxy. destruct (promptOutput inp); simpl; count_emitted.
  - count_emitted.
  - count_emitted.
  - destruct (canGoBack w); count_emitted.
  - destruct (canGoForward w); count_emitted.
  - count_emitted.
  - count_emitted.
Qed.

(** X6 at the concrete instance: selecting a starting page requests no
    rebuild. *)
Lemma runClick_rebuild_requests_witness :
  rebuildsRequested
    (runClick exampleEnv (clickStartingPage "Home") exampleInput true
       exampleWorld).1
  = 0%nat.
Proof.
  apply (runClick_rebuild_requests exampleEnv (clickStartingPage "Home")
           exampleInput true exampleWorld).
  reflexivity.
Defined.

(** X7.  Among the items of this module, a message box is shown by exactly
    two kinds of click: the selection of a language, always one, and
    hide-menu, one when the item is left checked while the warned flag is
    unset.  No other click shows any. *)
Theorem runClick_dialogs env k inp checked w :
  ownClick k = true →
  dialogsShown (runClick env k inp checked w).1
  = (dialogsShown w
     + match k with
       | clickLanguage _ => 1
       | clickHideMenu =>
           if checked
              && negb (Js.truthy (configGet w "options.hideMenuWarned"))
           then 1 else 0
       | _ => 0
       end)%nat.
Proof.
  intros Hown.
  destruct k as [p hs cb|path0|name0|v0| | | | | |tr av|lang| | | | | | | |p n];
    try apply runClick_hideMenu; simpl; try discriminate Hown.
  - destruct checked, hs, cb as [[]|]; simpl; count_emitted.
  - count_emitted.
  - count_emitted.
  - count_emitted.
  - count_emitted.
  - destruct (openDialogFilePaths inp); simpl; count_emitted.
  - destruct checked, (hasSingleInstanceLock w) eqn:Hlock; simpl; count_emitted.
  - count_emitted.
  - count_emitted.
  - count_emitted.
  - unfold setProxy. destruct (promptOutput inp); simpl; count_emitted.
  - count_emitted.
  - count_emitted.
  - destruct (canGoBack w); count_emitted.
  - destruct (canGoForward w); count_emitted.
  - count_emitted.
  - count_emitted.
Qed.

(** X7 at the concrete instance: selecting a language shows one message
    box. *)
Lemma runClick_dialogs_witness :
  dialogsShown
    (runClick exampleEnv (clickLanguage "fr") exampleInput true
       exampleWorld).1
  = 1%nat.
Proof.
  apply (runClick_dialogs exampleEnv (clickLanguage "fr") exampleInput true
           exampleWorld).
  reflexivity.
Defined.

(** ** Further properties: the order of the Plugins group *)

Section Stable.

Context {A : Type} (cmp : A → A → Z).

Hypothesis cmp_trans :
  ∀ a b c, cmpLe cmp a b → cmpLe cmp b c → cmpLe cmp a c.

(** Inserting [a] moves it past elements that collate strictly before it
    only, so the elements tied with any [x] keep their relative order. *)
Lemma sortInsert_ties x a l :
  List.filter (tied cmp x) (sortInsert cmp a l)
  = List.filter (tied cmp x) (a :: l).
Proof.
  induction l as [|y r IH]; [done|].
  cbn [sortInsert]. destruct (Z.leb_spec (cmp a y) 0) as [Hle|Hgt]; [done|].
  cbn [List.filter] in *. rewrite IH.
  destruct (tied cmp x a) eqn:Ha, (tied cmp x y) eqn:Hy; try done.
  exfalso. unfold tied in Ha, Hy.
  apply andb_true_iff in Ha as [_ Hax%Z.leb_le].
  apply andb_true_iff in Hy as [Hxy%Z.leb_le _].
  pose proof (cmp_trans a x y Hax Hxy) as Hay. unfold cmpLe in Hay. lia.
Qed.

Lemma arraySort_ties x l :
  List.filter (tied cmp x) (arraySort cmp l) = List.filter (tied cmp x) l.
Proof.
  induction l as [|a r IH]; [done|].
  cbn [arraySort]. rewrite sortInsert_ties. cbn [List.filter]. by rewrite IH.
Qed.

End Stable.

Lemma arraySort_sorted_input {A} (cmp : A → A → Z) l :
  StronglySorted (cmpLe cmp) l → arraySort cmp l = l.
Proof.
  induction 1 as [|x r Hr IH Hx]; [done|].
  cbn [arraySort]. rewrite IH. destruct Hx as [|y r' Hxy _]; [done|].
  cbn [sortInsert]. unfold cmpLe in Hxy.
  by destruct (Z.leb_spec (cmp x y) 0); [|lia].
Qed.

(** X9.  Sorting the plugins is stable: provided the collation is
    transitive, the plugins whose display names collate as equal to that of
    any given plugin appear in the sorted list in the order in which they
    are registered. *)
Theorem sortedPlugins_stable env id
    (Htrans : ∀ a b c, (localeCompare env a b <= 0)%Z →
                       (localeCompare env b c <= 0)%Z →
                       (localeCompare env a c <= 0)%Z) :
  List.filter (tied (compareLabels env) id) (sortedPlugins env)
  = List.filter (tied (compareLabels env) id) (keys (allPlugins env)).
Proof.
  apply (arraySort_ties (compareLabels env)).
  intros a b c. apply Htrans.
Qed.

(** X9 at the instance whose plugins "b" and "c" are named Beta and BETA:
    they collate as equal and stay in registration order. *)
Lemma sortedPlugins_stable_witness :
  List.filter (tied (compareLabels orderedEnv) "c") (sortedPlugins orderedEnv)
  = ["b"; "c"].
Proof.
  rewrite (sortedPlugins_stable orderedEnv "c").
  - reflexivity.
  - intros a b c. apply lexCompare_trans.
Defined.

(** X10.  When the plugins are registered in the order of their display
    names, sorting changes nothing: the Plugins group lists them in
    registration order. *)
Theorem sortedPlugins_of_ordered_registry env templates w :
  StronglySorted (cmpLe (compareLabels env)) (keys (allPlugins env)) →
  sortedPlugins env = keys (allPlugins env)
  ∧ pluginMenus env templates w
    = map (pluginMenu env templates w) (keys (allPlugins env)).
Proof.
  intros Hsorted.
  assert (Hkeys : sortedPlugins env = keys (allPlugins env))
    by apply (arraySort_sorted_input (compareLabels env)), Hsorted.
  split; [done|]. unfold pluginMenus. by rewrite Hkeys.
Qed.

Lemma orderedEnv_sorted :
  StronglySorted (cmpLe (compareLabels orderedEnv))
                 (keys (allPlugins orderedEnv)).
Proof.
  repeat constructor; unfold cmpLe; vm_compute; discriminate.
Defined.

(** X10 at the instance registered in display order. *)
Lemma sortedPlugins_of_ordered_registry_witness :
  sortedPlugins orderedEnv = ["a"; "b"; "c"]
  ∧ pluginMenus orderedEnv exampleTemplates exampleWorld
    = map (pluginMenu orderedEnv exampleTemplates exampleWorld)
          ["a"; "b"; "c"].
Proof.
  apply (sortedPlugins_of_ordered_registry orderedEnv exampleTemplates
           exampleWorld orderedEnv_sorted).
Defined.


(** ** Further properties: the groups under any configuration *)

Section AnyValue.

(** Items built from a list of names, the item of [name] being checked when
    the configured value [v], whatever it is, is strictly equal to [name]. *)
Variable f : string → MenuItemConstructorOptions.
Variable K : string → Click.
Variable v : Js.value.
Hypothesis f_checked :
  ∀ name, isChecked (f name) = Js.truthy (Js.strict_eq_str v name).
Hypothesis f_click : ∀ name, click (f name) = Some (K name).

Lemma checkedClicks_unoffered names :
  (∀ s, v = Js.str s → ¬ In s names) → checkedClicks (map f names) = [].
Proof.
  unfold checkedClicks. induction names as [|x r IH]; [done|].
  intros Hnot. cbn [map List.filter].
  assert (Hx : isChecked (f x) = false).
  { rewrite f_checked. destruct v as [|b|s|l]; simpl; try done.
    apply bool_decide_eq_false_2. intros ->. apply (Hnot x); [done|by left]. }
  rewrite Hx. apply IH. intros s Hs Hin. apply (Hnot s Hs). by right.
Qed.

Lemma checkedClicks_at_most_one names :
  NoDup names → (length (checkedClicks (map f names)) <= 1)%nat.
Proof.
  intros Hnodup.
  assert (Hcase : (∃ s, v = Js.str s ∧ In s names)
                  ∨ (∀ s, v = Js.str s → ¬ In s names)).
  { destruct v as [|b|s|l] eqn:Hv; try (right; congruence).
    destruct (decide (s ∈ names)) as [Hin%list_elem_of_In|Hout].
    - left. by exists s.
    - right. intros s' [= <-]. by rewrite <- list_elem_of_In. }
  destruct Hcase as [(s & Hs & Hin)|Hno].
  - rewrite (checkedClicks_present f K s); [done| |done|done|done].
    intros name. by rewrite f_checked, Hs.
  - rewrite checkedClicks_unoffered; [simpl; lia|done].
Qed.

End AnyValue.

Lemma strict_eq_str_true v s :
  Js.truthy (Js.strict_eq_str v s) = true → v = Js.str s.
Proof.
  destruct v as [|b|s'|l]; simpl; try done.
  by intros ->%bool_decide_eq_true.
Qed.

Lemma checkedClicks_cons it group :
  checkedClicks (it :: group)
  = (if isChecked it then [click it] else []) ++ checkedClicks group.
Proof. unfold checkedClicks. simpl. by destruct (isChecked it). Qed.

Lemma startingPageMenu_at_most_one env w :
  NoDup (startingPages env) → ¬ In "" (startingPages env) →
  (length (checkedClicks (startingPageMenu env w)) <= 1)%nat.
Proof.
  intros Hpages Hunset. unfold startingPageMenu.
  set (v := configGet w "options.startingPage").
  set (f := λ name, typedItem name radio (Js.strict_eq_str v name)
                      (clickStartingPage name)).
  rewrite checkedClicks_cons. fold f.
  destruct (isChecked _) eqn:Hfirst.
  - apply strict_eq_str_true in Hfirst.
    rewrite (checkedClicks_unoffered f v); [simpl; lia|done|].
    intros s Hs. rewrite Hfirst in Hs. by injection Hs as <-.
  - by apply (checkedClicks_at_most_one f clickStartingPage v).
Qed.

Lemma likeButtonsMenu_at_most_one env w :
  (length (checkedClicks (likeButtonsMenu env w)) <= 1)%nat.
Proof.
  unfold likeButtonsMenu, checkedClicks, isChecked.
  destruct (configGet w "options.likeButtons") as [|b|s|l]; simpl;
    [lia|destruct b; simpl; lia| |lia].
  destruct (bool_decide_reflect (s = "")) as [->|_]; [simpl; lia|].
  destruct (bool_decide_reflect (s = "force")) as [->|_]; [simpl; lia|].
  destruct (bool_decide_reflect (s = "hide")) as [->|_]; simpl; lia.
Qed.

(** X12.  Whatever the configuration holds, values of the wrong type and
    values no item offers included, no group ever shows two checked items,
    provided the starting-page names are distinct and none is empty and the
    language bundles are distinct; the radio items of the tray group always
    show exactly one. *)
Theorem groups_at_most_one_checked env w
    (Hpages : NoDup (startingPages env))
    (Hunset : ¬ In "" (startingPages env))
    (Hlangs : NoDup (keys (languageResources env))) :
  (length (checkedClicks (startingPageMenu env w)) <= 1)%nat
  ∧ (length (checkedClicks (likeButtonsMenu env w)) <= 1)%nat
  ∧ (length (checkedClicks (languageMenu env w)) <= 1)%nat
  ∧ (length (checkedClicks (themeMenu env w)) <= 1)%nat
  ∧ length (checkedClicks (radioItems (trayMenu env w))) = 1%nat.
Proof.
  split; [by apply startingPageMenu_at_most_one|].
  split; [apply likeButtonsMenu_at_most_one|].
  split; [|split].
  - unfold languageMenu.
    by apply (checkedClicks_at_most_one _ clickLanguage
                (configGet w "options.language")).
  - unfold themeMenu, checkedClicks, isChecked; simpl.
    destruct (Js.opt_length _) as [[|n]|]; simpl; lia.
  - by rewrite trayMenu_checked.
Qed.

(** X12 at the concrete instance, with a starting page no item offers. *)
Lemma groups_at_most_one_checked_witness :
  (length (checkedClicks
             (startingPageMenu exampleEnv
                (configSet "options.startingPage" (Js.str "Elsewhere")
                   exampleWorld))) <= 1)%nat.
Proof.
  apply (groups_at_most_one_checked exampleEnv
           (configSet "options.startingPage" (Js.str "Elsewhere") exampleWorld)
           exampleEnv_pages_distinct exampleEnv_pages_named
           exampleEnv_languages_distinct).
Defined.

(** X13.  A configured value that no item of a group stands for leaves the
    group without checked item: a starting page that is neither unset nor a
    known name, nothing at all at the starting-page path, a language that is
    no available bundle, a like-buttons mode other than force and hide.  A
    like-buttons value that is falsy, the absent one included, checks the
    default item. *)
Theorem groups_unoffered_value env w :
  ((∀ name, configGet w "options.startingPage" = Js.str name →
            name ≠ "" ∧ ¬ In name (startingPages env)) →
   checkedClicks (startingPageMenu env w) = [])
  ∧ ((∀ lang, configGet w "options.language" = Js.str lang →
              ¬ In lang (keys (languageResources env))) →
     checkedClicks (languageMenu env w) = [])
  ∧ (Js.truthy (configGet w "options.likeButtons") = false →
     checkedClicks (likeButtonsMenu env w) = [Some (clickLikeButtons "")])
  ∧ (Js.truthy (configGet w "options.likeButtons") = true →
     configGet w "options.likeButtons" ≠ Js.str "force" →
     configGet w "options.likeButtons" ≠ Js.str "hide" →
     checkedClicks (likeButtonsMenu env w) = []).
Proof.
  split; [|split; [|split]].
  - intros Hnot. unfold startingPageMenu.
    set (v := configGet w "options.startingPage") in *.
    set (f := λ name, typedItem name radio (Js.strict_eq_str v name)
                        (clickStartingPage name)).
    rewrite checkedClicks_cons. fold f.
    destruct (isChecked _) eqn:Hfirst.
    + apply strict_eq_str_true in Hfirst. by destruct (Hnot "" Hfirst).
    + apply (checkedClicks_unoffered f v); [done|].
      intros s Hs. by destruct (Hnot s Hs).
  - intros Hnot. unfold languageMenu.
    by apply (checkedClicks_unoffered _ (configGet w "options.language")).
  - unfold likeButtonsMenu, checkedClicks, isChecked.
    destruct (configGet w "options.likeButtons") as [|b|s|l]; simpl;
      try done.
    + by intros ->.
    + intros ->%negb_false_iff%bool_decide_eq_true. done.
  - unfold likeButtonsMenu, checkedClicks, isChecked.
    destruct (configGet w "options.likeButtons") as [|b|s|l]; simpl;
      try done.
    + by intros ->.
    + intros Htruthy Hforce Hhide. rewrite Htruthy. simpl.
      rewrite !bool_decide_eq_false_2; [done| |]; congruence.
Qed.

(** X13 on the store of the concrete instance, which holds nothing. *)
Lemma groups_unoffered_value_witness :
  checkedClicks (startingPageMenu exampleEnv exampleWorld) = []
  ∧ checkedClicks (languageMenu exampleEnv exampleWorld) = []
  ∧ checkedClicks (likeButtonsMenu exampleEnv exampleWorld)
    = [Some (clickLikeButtons "")].
Proof.
  pose proof (groups_unoffered_value exampleEnv exampleWorld)
    as (Hpage & Hlang & Hlike & _).
  split; [|split].
  - apply Hpage. intros name H. discriminate H.
  - apply Hlang. intros lang H. discriminate H.
  - apply Hlike. reflexivity.
Defined.

(** X14.  The hide-menu checkbox is part of the Options group on every
    platform but macOS, the start-at-login checkbox on every platform but
    Linux; the group has twelve entries on Windows and eleven elsewhere,
    whatever the configuration. *)
Theorem platform_conditional_checkboxes env w :
  (In "options.hideMenu" (map fst (boundCheckboxes (optionsMenu env w)))
   ↔ platform env ≠ darwin)
  ∧ (In "options.startAtLogin" (map fst (boundCheckboxes (optionsMenu env w)))
     ↔ platform env ≠ linux)
  ∧ length (optionsMenu env w)
    = match platform env with win32 => 12%nat | _ => 11%nat end.
Proof.
  rewrite boundCheckboxes_optionsMenu, map_map, map_id.
  unfold optionsMenu, hideMenuItems, startAtLoginItems, checkboxPaths,
    isWindows, isLinux, isMacOS.
  destruct (platform env); simpl; (split; [|split]); try reflexivity;
    split; try congruence; intros H;
    repeat (destruct H as [H|H]; try discriminate H); tauto.
Qed.

(** ** Further properties: the tree is made of well-formed items *)

Lemma allWellFormed_app m1 m2 :
  allWellFormed (m1 ++ m2) = allWellFormed m1 && allWellFormed m2.
Proof. unfold allWellFormed, flatten. by rewrite flat_map_app, forallb_app. Qed.

Lemma allWellFormed_cons it m :
  allWellFormed (it :: m)
  = wellFormedItem it
    && match submenu it with Some l => allWellFormed l | None => true end
    && allWellFormed m.
Proof.
  unfold allWellFormed, flatten. simpl flat_map.
  rewrite flattenItem_eq. simpl. rewrite forallb_app.
  destruct (submenu it); simpl; by rewrite ?andb_true_r, ?andb_assoc.
Qed.

Lemma allWellFormed_leaves {A} (f : A → MenuItemConstructorOptions) xs :
  (∀ x, wellFormedItem (f x) = true ∧ submenu (f x) = None) →
  allWellFormed (map f xs) = true.
Proof.
  intros Hf. induction xs as [|x xs IH]; [done|].
  simpl map. rewrite allWellFormed_cons, IH.
  by destruct (Hf x) as [-> ->].
Qed.

Lemma allWellFormed_optionsMenu env w : allWellFormed (optionsMenu env w) = true.
Proof.
  assert (Hpages : allWellFormed (startingPageMenu env w) = true).
  { unfold startingPageMenu. rewrite allWellFormed_cons.
    by rewrite allWellFormed_leaves. }
  assert (Hlangs : allWellFormed (languageMenu env w) = true).
  { unfold languageMenu. by rewrite allWellFormed_leaves. }
  assert (Hadv : allWellFormed (advancedOptionsMenu env w) = true).
  { unfold advancedOptionsMenu. by destruct (isMacOS env). }
  unfold optionsMenu, hideMenuItems, startAtLoginItems.
  rewrite !allWellFormed_app, !allWellFormed_cons.
  cbn [submenu submenuItem typedItem separatorItem singleInstanceLockItem].
  rewrite Hpages, Hlangs, Hadv.
  by destruct (isWindows env || isLinux env), (isWindows env || isMacOS env).
Qed.

Lemma property_In {A} (obj : list (string * A)) key v :
  property obj key = Some v → In (key, v) obj.
Proof.
  induction obj as [|[k v'] rest IH]; simpl; [done|].
  destruct (bool_decide_reflect (k = key)) as [->|_].
  - intros [= ->]. by left.
  - intros H. right. by apply IH.
Qed.

Lemma allWellFormed_pluginMenus env templates w ids :
  Forall (λ entry, allWellFormed entry.2 = true) templates →
  allWellFormed (map (pluginMenu env templates w) ids) = true.
Proof.
  intros Htemplates. induction ids as [|id ids IH]; [done|].
  simpl map. rewrite allWellFormed_cons, IH, andb_true_r.
  unfold pluginMenu. rewrite find_menuResult.
  destruct (property templates id) as [template|] eqn:Hprop; [|done].
  destruct (negb (pluginsIsEnabled w id)); [done|].
  cbn [snd submenuItem submenu wellFormedItem type role label present orb
         andb].
  rewrite !allWellFormed_cons. cbn.
  apply property_In, list_elem_of_In in Hprop.
  by apply (proj1 (Forall_forall _ _) Htemplates _ Hprop).
Qed.

(** X15.  Provided every fragment the plugins contribute is made of
    well-formed items, so is the whole tree, at every depth and under every
    configuration, and so is the menu a refresh installs, application
    submenu included. *)
Theorem mainMenuTemplate_well_formed env templates w :
  Forall (λ entry, allWellFormed entry.2 = true) templates →
  allWellFormed (mainMenuTemplate env templates w) = true
  ∧ ∃ installed,
      applicationMenu (refreshMenu env templates w) = Some installed
      ∧ allWellFormed installed = true.
Proof.
  intros Htemplates.
  assert (Hmain : allWellFormed (mainMenuTemplate env templates w) = true).
  { unfold mainMenuTemplate. rewrite !allWellFormed_cons.
    cbn [submenu submenuItem wellFormedItem type role label present orb andb].
    unfold pluginMenus.
    rewrite allWellFormed_pluginMenus, allWellFormed_optionsMenu by done.
    unfold viewMenu. by destruct (isMacOS env). }
  split; [done|].
  unfold refreshMenu, setApplicationMenu.
  destruct (inAppMenuActive env), (isMacOS env); simpl;
    eexists; (split; [reflexivity|]);
    rewrite ?allWellFormed_cons; by rewrite ?Hmain.
Qed.

(** X15 at the concrete instance, whose plugin "a" contributes one action. *)
Lemma mainMenuTemplate_well_formed_witness :
  allWellFormed (mainMenuTemplate exampleEnv exampleTemplates exampleWorld)
  = true.
Proof.
  apply (mainMenuTemplate_well_formed exampleEnv exampleTemplates exampleWorld).
  repeat constructor.
Defined.
